(** * pymixite: layout strategies and grid builder

    A shallow embedding of [mixite/layout.py] and [mixite/builder.py]
    together with the properties of the coordinate enumeration, the size
    validation and the builder's failure behaviour.

    Python integers are unbounded, so they are modelled by [Z].  The two
    places where the hexagon layout goes through floating point
    ([floor(n / 2.0)], [round(n / 4.0)]) are modelled by the exact value of
    the double involved, including the rounding of the conversion from
    [int] and its [OverflowError]. *)

From Stdlib Require Import QArith Qround.
From stdpp Require Import base tactics numbers list list_numbers sorting strings pretty gmap.

Local Open Scope Z_scope.

(** ** Python runtime: exceptions and the result of a call *)

Inductive exn : Type :=
  | GridLayoutException (message : string)
  | OverflowError.

Inductive res (A : Type) : Type :=
  | Ok (a : A)
  | Raise (e : exn).
Global Arguments Ok {A} a.
Global Arguments Raise {A} e.

Global Instance res_ret : MRet res := λ A a, Ok a.
Global Instance res_bind : MBind res := λ A B f m,
  match m with
  | Ok a => f a
  | Raise e => Raise e
  end.
Global Instance res_fmap : FMap res := λ A B f m,
  match m with
  | Ok a => Ok (f a)
  | Raise e => Raise e
  end.

(** [for x in xs: body] over a loop state [s]: the pure loop and the loop
    whose body may raise. *)
Definition for_ {A S : Type} (xs : list A) (s : S) (body : A → S → S) : S :=
  foldl (λ s x, body x s) s xs.

Fixpoint for_m {A S : Type} (xs : list A) (s : S) (body : A → S → res S) : res S :=
  match xs with
  | [] => mret s
  | x :: xs' => s' ← body x s; for_m xs' s' body
  end.

(** [range(lo, hi)]: empty when [hi <= lo]. *)
Definition range (lo hi : Z) : list Z := seqZ lo (hi - lo).

(** [str(n)] for an integer. *)
Definition str (n : Z) : string := pretty n.

(** ** Floating point

    A finite double is represented by its exact rational value.  The only
    doubles the layout code forms are [n / 2.0] and [n / 4.0] for an
    integer [n]: the integer is first converted to a double (rounding to 53
    significant bits, ties to even, [OverflowError] when the rounded value
    does not fit), and the division by a power of two is then exact. *)
Module Float.

Definition float : Type := Q.

(** The integer nearest to [n] with at most 53 significant bits, ties to
    even: the value of [float(n)] when it fits. *)
Definition round_to_double (n : Z) : Z :=
  let a := Z.abs n in
  if a <? 2 ^ 53 then n
  else
    let k := Z.log2 a - 52 in
    let q := a / 2 ^ k in
    let r := a mod 2 ^ k in
    let half := 2 ^ (k - 1) in
    let q' := if (half <? r) || ((r =? half) && Z.odd q) then q + 1 else q in
    Z.sgn n * (q' * 2 ^ k).

(** [float(n)], the implicit conversion in [n / 2.0]. *)
Definition of_int (n : Z) : res float :=
  let v := round_to_double n in
  if 2 ^ 1024 <=? Z.abs v then Raise OverflowError else Ok (inject_Z v).

(** [n / d] for an integer [n] and a float literal [d] that is a power of
    two. *)
Definition truediv (n : Z) (d : Q) : res float :=
  x ← of_int n; mret (x / d)%Q.

(** [math.floor(x)]. *)
Definition floor (x : float) : Z := Qfloor x.

(** [round(x)]: to the nearest integer, ties to the even one. *)
Definition round (x : float) : Z :=
  let f := Qfloor x in
  match (x - inject_Z f ?= 1 # 2)%Q with
  | Lt => f
  | Gt => f + 1
  | Eq => if Z.even f then f else f + 1
  end.

End Float.

(** ** Coordinates *)

Record CubeCoordinate : Type := mkCubeCoordinate { gridX : Z; gridZ : Z }.

Global Instance CubeCoordinate_eq_dec : EqDecision CubeCoordinate.
Proof. solve_decision. Defined.

Global Instance CubeCoordinate_countable : Countable CubeCoordinate.
Proof.
  refine (inj_countable' (λ c, (gridX c, gridZ c))
                         (λ p, mkCubeCoordinate p.1 p.2) _).
  by intros [].
Defined.

(** Modelled from the spec: the orientation tag [CubeCoordinate.FLAT_TOP]
    of [mixite/coord.py]; orientations are the string tags "FLAT_TOP" and
    anything else. *)
Definition FLAT_TOP : string := "FLAT_TOP".

(** The static methods of [CoordinateConverter] ([mixite/coord.py]) that
    the rectangle layout calls. *)
Class CoordinateConverter : Type := {
  offset_coords_to_cube_x : Z → Z → string → Z;
  offset_coords_to_cube_z : Z → Z → string → Z;
}.

(** ** Layout strategies *)

Record GridLayoutStrategy : Type := {
  fetch_grid_coords : Z → Z → string → res (list CubeCoordinate);
  check_size : Z → Z → res ();
  get_name : string;
}.

Definition size_message (width height : Z) (requirement : string) : string :=
  "Attempted to build a grid with invalid size " +:+ str width +:+ ", "
    +:+ str height +:+ requirement.

Module Rectangle.
Section with_converter.
Context `{!CoordinateConverter}.

Definition fetch_grid_coords (width height : Z) (orientation : string)
  : res (list CubeCoordinate) :=
let coords : list CubeCoordinate := [] in
let coords :=
  for_ (range 0 height) coords (λ y coords,
    for_ (range 0 width) coords (λ x coords,
      let grid_x := offset_coords_to_cube_x x y orientation in
      let grid_z := offset_coords_to_cube_z x y orientation in
      coords ++ [mkCubeCoordinate grid_x grid_z])) in
mret coords.

Definition check_size (width height : Z) : res () :=
if negb ((0 <? width) && (0 <? height))
then Raise (GridLayoutException
       (size_message width height
          ". Rectangle dimensions must be larger than zero."))
else Ok ().

Definition get_name : string := "RECTANGULAR".

Definition strategy : GridLayoutStrategy :=
Build_GridLayoutStrategy fetch_grid_coords check_size get_name.

End with_converter.
End Rectangle.

Module Triangle.

Definition fetch_grid_coords (width height : Z) (orientation : string)
    : res (list CubeCoordinate) :=
  let coords : list CubeCoordinate := [] in
  let coords :=
    for_ (range 0 height) coords (λ z coords,
      let end_x := height - z in
      for_ (range 0 end_x) coords (λ x coords,
        coords ++ [mkCubeCoordinate x z])) in
  mret coords.

(** [0 < width == height > 0] is the chained comparison
    [0 < width and width == height and height > 0]. *)
Definition check_size (width height : Z) : res () :=
  if negb ((0 <? width) && (width =? height) && (0 <? height))
  then Raise (GridLayoutException
         (size_message width height
            ". Triangle dimensions must be equal and larger than zero."))
  else Ok ().

Definition get_name : string := "TRIANGULAR".

Definition strategy : GridLayoutStrategy :=
  Build_GridLayoutStrategy fetch_grid_coords check_size get_name.

End Triangle.

Module Trapezoid.

Definition fetch_grid_coords (width height : Z) (orientation : string)
    : res (list CubeCoordinate) :=
  let coords : list CubeCoordinate := [] in
  let coords :=
    for_ (range 0 height) coords (λ z coords,
      for_ (range 0 width) coords (λ x coords,
        coords ++ [mkCubeCoordinate x z])) in
  mret coords.

Definition check_size (width height : Z) : res () :=
  if negb ((0 <? width) && (0 <? height))
  then Raise (GridLayoutException
         (size_message width height
            ". Trapezoid dimensions must be larger than zero."))
  else Ok ().

Definition get_name : string := "TRAPEZOID".

Definition strategy : GridLayoutStrategy :=
  Build_GridLayoutStrategy fetch_grid_coords check_size get_name.

End Trapezoid.

Module Hexagon.

Definition fetch_grid_coords (width height : Z) (orientation : string)
    : res (list CubeCoordinate) :=
  let coords : list CubeCoordinate := [] in
  let grid_size := height in
  hex_radius ← Float.floor <$> Float.truediv grid_size 2;
  start_x ← (if decide (FLAT_TOP = orientation)
             then Float.floor <$> Float.truediv grid_size 2
             else Float.round <$> Float.truediv grid_size 4);
  let min_x := start_x - hex_radius in
  '(coords, _) ← for_m (range 0 grid_size) (coords, start_x)
    (λ y '(coords, start_x),
       let dist_from_mid := Z.abs (hex_radius - y) in
       coords ← for_m (range (Z.max start_x min_x)
                         (Z.max start_x min_x + 2 * hex_radius - dist_from_mid + 1))
                  coords
         (λ x coords,
            z ← (if decide (FLAT_TOP = orientation)
                 then q ← Float.floor <$> Float.truediv grid_size 4; mret (y - q)
                 else mret y);
            mret (coords ++ [mkCubeCoordinate x z]));
       mret (coords, start_x - 1));
  mret coords.

Definition check_size (width height : Z) : res () :=
  if negb ((0 <? width) && (0 <? height) && (width =? height)
           && (Z.abs (height `mod` 2) =? 1))
  then Raise (GridLayoutException
         (size_message width height
            ". Hexagon dimensions must be equal, odd, and larger than zero."))
  else Ok ().

Definition get_name : string := "HEXAGONAL".

Definition strategy : GridLayoutStrategy :=
  Build_GridLayoutStrategy fetch_grid_coords check_size get_name.

End Hexagon.

(** ** Grid builder

    The builder's collaborators live in [mixite/hex.py], [mixite/storage.py],
    [mixite/grid.py] and [mixite/calculator.py].  Each is modelled by the
    record of what the builder stores in it, and every constructor or
    method call the builder makes on them is recorded in a call log, so
    that what a build has done is observable also when it raises. *)
Module Builder.

(** Modelled from the spec: [GridData], the immutable record of
    (orientation, radius, width, height) shared by the hexagons of a
    grid. *)
Record GridData : Type := mkGridData {
  gd_orientation : string;
  gd_radius : Float.float;
  gd_width : Z;
  gd_height : Z;
}.

(** Modelled from the spec: [HexagonImpl], a hexagon record carrying its
    coordinate and the shared grid data. *)
Record HexagonImpl : Type := mkHexagonImpl {
  hex_grid_data : GridData;
  hex_coord : CubeCoordinate;
}.

(** Modelled from the spec: [HexagonGridImpl] with its storage
    ([DefaultHexagonDataStorage], an associative structure keyed by
    coordinate) and its ordered hexagon list. *)
Record HexagonGridImpl : Type := mkHexagonGridImpl {
  grid_data : GridData;
  storage : gmap CubeCoordinate HexagonImpl;
  hexagons : list HexagonImpl;
}.

(** Modelled from the spec: [HexagonGridCalculator], which keeps the grid
    it computes on. *)
Record HexagonGridCalculator : Type := mkHexagonGridCalculator {
  calc_grid : HexagonGridImpl;
}.

Record GridControl : Type := mkGridControl {
  gc_hex_grid : HexagonGridImpl;
  gc_calculator : HexagonGridCalculator;
  gc_grid_data : GridData;
}.

Inductive call : Type :=
  | NewGridData
  | NewStorage
  | NewGrid
  | FetchGridCoords (name : string)
  | NewHexagon (coord : CubeCoordinate)
  | AddCoordWithData (coord : CubeCoordinate)
  | AppendHexagon (coord : CubeCoordinate)
  | NewCalculator.

(** A builder computation: it extends the call log and returns or
    raises; the calls made before an exception stay in the log. *)
Definition M (A : Type) : Type := list call → res A * list call.

Global Instance M_ret : MRet M := λ A a log, (Ok a, log).
Global Instance M_bind : MBind M := λ A B f m log,
  match m log with
  | (Ok a, log') => f a log'
  | (Raise e, log') => (Raise e, log')
  end.

Definition called {A : Type} (c : call) (a : A) : M A :=
  λ log, (Ok a, log ++ [c]).
Definition lift {A : Type} (r : res A) : M A := λ log, (r, log).

(** The calls that enumerate coordinates or touch hexagons, the storage
    or the hexagon list. *)
Definition populates (c : call) : bool :=
  match c with
  | FetchGridCoords _ | NewHexagon _ | AddCoordWithData _ | AppendHexagon _ => true
  | NewGridData | NewStorage | NewGrid | NewCalculator => false
  end.

Definition build_grid_data (orientation : string) (radius : Float.float)
    (width height : Z) : M GridData :=
  called NewGridData (mkGridData orientation radius width height).

Definition check_size (strategy : GridLayoutStrategy) (width height : Z) : M () :=
  lift (check_size strategy width height).

Definition add_coord_with_data (coord : CubeCoordinate) (hexagon : HexagonImpl)
    (store : gmap CubeCoordinate HexagonImpl) : M (gmap CubeCoordinate HexagonImpl) :=
  called (AddCoordWithData coord) (<[coord := hexagon]> store).

Fixpoint for_M {A S : Type} (xs : list A) (s : S) (body : A → S → M S) : M S :=
  match xs with
  | [] => mret s
  | x :: xs' => s' ← body x s; for_M xs' s' body
  end.

Definition populate_storage (grid : HexagonGridImpl) (grid_data : GridData)
    (coords : list CubeCoordinate) : M HexagonGridImpl :=
  for_M coords grid (λ coord grid,
    hexagon ← called (NewHexagon coord) (mkHexagonImpl grid_data coord);
    store ← add_coord_with_data coord hexagon (storage grid);
    called (AppendHexagon coord)
      (mkHexagonGridImpl (Builder.grid_data grid) store (hexagons grid ++ [hexagon]))).

Definition strategy_fetch_grid_coords (strategy : GridLayoutStrategy)
    (width height : Z) (orientation : string) : M (list CubeCoordinate) :=
  _ ← called (FetchGridCoords (get_name strategy)) ();
  lift (fetch_grid_coords strategy width height orientation).

Definition new_grid (grid_data : GridData) : M HexagonGridImpl :=
  store ← called NewStorage (∅ : gmap CubeCoordinate HexagonImpl);
  called NewGrid (mkHexagonGridImpl grid_data store []).

Section with_converter.
Context `{!CoordinateConverter}.

Definition build_rectangle (orientation : string) (radius : Float.float)
    (width height : Z) : M GridControl :=
  grid_data ← build_grid_data orientation radius width height;
  let strategy := Rectangle.strategy in
  _ ← check_size strategy width height;
  grid ← new_grid grid_data;
  coords ← strategy_fetch_grid_coords strategy width height orientation;
  grid ← populate_storage grid grid_data coords;
  calculator ← called NewCalculator (mkHexagonGridCalculator grid);
  mret (mkGridControl grid calculator grid_data).

End with_converter.

Definition build_hexagon (orientation : string) (radius : Float.float)
    (width height : Z) : M GridControl :=
  grid_data ← build_grid_data orientation radius width height;
  let strategy := Hexagon.strategy in
  _ ← check_size strategy width height;
  grid ← new_grid grid_data;
  coords ← strategy_fetch_grid_coords strategy width height orientation;
  grid ← populate_storage grid grid_data coords;
  calculator ← called NewCalculator (mkHexagonGridCalculator grid);
  mret (mkGridControl grid calculator grid_data).

Definition build_triangle (orientation : string) (radius : Float.float)
    (width height : Z) : M GridControl :=
  grid_data ← build_grid_data orientation radius width height;
  let strategy := Triangle.strategy in
  _ ← check_size strategy width height;
  grid ← new_grid grid_data;
  coords ← strategy_fetch_grid_coords strategy width height orientation;
  grid ← populate_storage grid grid_data coords;
  calculator ← called NewCalculator (mkHexagonGridCalculator grid);
  mret (mkGridControl grid calculator grid_data).

Definition build_trapezoid (orientation : string) (radius : Float.float)
    (width height : Z) : M GridControl :=
  grid_data ← build_grid_data orientation radius width height;
  let strategy := Trapezoid.strategy in
  _ ← check_size strategy width height;
  grid ← new_grid grid_data;
  coords ← strategy_fetch_grid_coords strategy width height orientation;
  grid ← populate_storage grid grid_data coords;
  calculator ← called NewCalculator (mkHexagonGridCalculator grid);
  mret (mkGridControl grid calculator grid_data).

End Builder.

(** Modelled from the spec: [CoordinateConverter] of [mixite/coord.py] is
    the standard axial-offset conversion, staggering rows for pointy-top
    and columns for flat-top. *)
Definition standard_converter : CoordinateConverter :=
  {| offset_coords_to_cube_x x y orientation :=
       if decide (FLAT_TOP = orientation) then x else x - y / 2;
     offset_coords_to_cube_z x y orientation :=
       if decide (FLAT_TOP = orientation) then y - x / 2 else y |}.

(** ** Closed forms of the enumerations *)

Definition translate (dx dz : Z) (c : CubeCoordinate) : CubeCoordinate :=
  mkCubeCoordinate (gridX c + dx) (gridZ c + dz).

Definition translate_all (dx dz : Z) (coords : list CubeCoordinate)
    : list CubeCoordinate :=
  translate dx dz <$> coords.

(** The row-major enumeration of [f y x] for [y] in [ys] and [x] in
    [xs y]. *)
Definition rows_of {A : Type} (ys : list Z) (xs : Z → list Z) (f : Z → Z → A) : list A :=
  ys ≫= λ y, f y <$> xs y.

(** Row [y] of the hexagon when the loop variable [start_x] has the given
    value. *)
Definition hexagon_row (hex_radius min_x start_x y z : Z) : list CubeCoordinate :=
  let lo := Z.max start_x min_x in
  (λ x, mkCubeCoordinate x z)
    <$> range lo (lo + 2 * hex_radius - Z.abs (hex_radius - y) + 1).

(** The hexagon for an initial [start_x] and a shift of the [z] axis; row
    [y] sees [start_x - y]. *)
Definition hexagon_rows (grid_size hex_radius start_x z_shift : Z) : list CubeCoordinate :=
  range 0 grid_size ≫= λ y,
    hexagon_row hex_radius (start_x - hex_radius) (start_x - y) y (y - z_shift).

(** The coordinates of a list that lie in the row with the given [gridZ]. *)
Definition row_at (z : Z) (coords : list CubeCoordinate) : list CubeCoordinate :=
  filter (λ c, gridZ c = z) coords.

(** The hexagon rows as the specification words them: the lower bound
    [max(startX, startX - hexRadius)] is taken with the [startX] of the
    current row in both places. *)
Definition hexagon_rows_as_worded (grid_size hex_radius start_x z_shift : Z)
    : list CubeCoordinate :=
  range 0 grid_size ≫= λ y,
    let startX := start_x - y in
    let lo := Z.max startX (startX - hex_radius) in
    (λ x, mkCubeCoordinate x (y - z_shift))
      <$> range lo (lo + 2 * hex_radius - Z.abs (hex_radius - y) + 1).

Definition sumZ (f : Z → Z) (l : list Z) : Z := foldr (λ y acc, f y + acc) 0 l.

(** ** Vocabulary of the statements *)

(** The hexagon for the double [x] that [float(height)] gives. *)
Definition hexagon_of_double (height : Z) (orientation : string) (x : Float.float)
    : list CubeCoordinate :=
  hexagon_rows height (Float.floor (x / 2)%Q)
    (if decide (FLAT_TOP = orientation)
     then Float.floor (x / 2)%Q else Float.round (x / 4)%Q)
    (if decide (FLAT_TOP = orientation) then Float.floor (x / 4)%Q else 0).

(** The four shapes and the strategy of each. *)
Inductive shape : Type := Rectangular | Triangular | TrapezoidShape | Hexagonal.

Definition strategy_of `{!CoordinateConverter} (s : shape) : GridLayoutStrategy :=
  match s with
  | Rectangular => Rectangle.strategy
  | Triangular => Triangle.strategy
  | TrapezoidShape => Trapezoid.strategy
  | Hexagonal => Hexagon.strategy
  end.

(** The size rule of each shape. *)
Definition size_rule (s : shape) (width height : Z) : Prop :=
  match s with
  | Rectangular | TrapezoidShape => 0 < width ∧ 0 < height
  | Triangular => 0 < width ∧ 0 < height ∧ width = height
  | Hexagonal => 0 < width ∧ 0 < height ∧ width = height ∧ Z.Odd height
  end.


(** [startX] before the first row and the shift of the [z] axis, with the
    exact quotients. *)
Definition hexagon_start_x (grid_size : Z) (orientation : string) : Z :=
  if decide (FLAT_TOP = orientation)
  then grid_size / 2 else Float.round (inject_Z grid_size / 4)%Q.

Definition hexagon_z_shift (grid_size : Z) (orientation : string) : Z :=
  if decide (FLAT_TOP = orientation) then grid_size / 4 else 0.

Definition expected_count (s : shape) (width height : Z) : Z :=
  match s with
  | Rectangular | TrapezoidShape => width * height
  | Triangular => height * (height + 1) / 2
  | Hexagonal => let hexRadius := height / 2 in 3 * hexRadius ^ 2 + 3 * hexRadius + 1
  end.

(** The converter sends distinct offset cells of a [width] by [height]
    rectangle to distinct cube coordinates. *)
Definition converter_injective_on `{!CoordinateConverter}
    (width height : Z) (orientation : string) : Prop :=
  ∀ x y x' y',
    0 ≤ x < width → 0 ≤ y < height → 0 ≤ x' < width → 0 ≤ y' < height →
    offset_coords_to_cube_x x y orientation = offset_coords_to_cube_x x' y' orientation →
    offset_coords_to_cube_z x y orientation = offset_coords_to_cube_z x' y' orientation →
    x = x' ∧ y = y'.

(** The offset cells at which the rectangle loop calls the converter. *)
Definition rectangle_cells (width height : Z) : list (Z * Z) :=
  rows_of (range 0 height) (λ _, range 0 width) (λ y x, (x, y)).

Definition build_shape `{!CoordinateConverter} (s : shape)
    : string → Float.float → Z → Z → Builder.M Builder.GridControl :=
  match s with
  | Rectangular => Builder.build_rectangle
  | Triangular => Builder.build_triangle
  | TrapezoidShape => Builder.build_trapezoid
  | Hexagonal => Builder.build_hexagon
  end.

(** The distance of two hexagons in cube coordinates; the third axis is
    [gridY = - gridX - gridZ]. *)
Definition cube_distance (a b : CubeCoordinate) : Z :=
  let dx := gridX a - gridX b in
  let dz := gridZ a - gridZ b in
  Z.max (Z.abs dx) (Z.max (Z.abs dz) (Z.abs (dx + dz))).

(** The middle hexagon of the hexagon layout: the middle column of the
    middle row. *)
Definition hexagon_center (grid_size : Z) (orientation : string) : CubeCoordinate :=
  mkCubeCoordinate (hexagon_start_x grid_size orientation)
                   (grid_size / 2 - hexagon_z_shift grid_size orientation).

(** Row-major order: by [gridZ], then by [gridX]. *)
Definition row_major_lt (c d : CubeCoordinate) : Prop :=
  gridZ c < gridZ d ∨ (gridZ c = gridZ d ∧ gridX c < gridX d).

(** The calls [populate_storage] makes for a list of coordinates. *)
Definition populate_calls (coords : list CubeCoordinate) : list Builder.call :=
  coords ≫= λ coord,
    [Builder.NewHexagon coord; Builder.AddCoordWithData coord;
     Builder.AppendHexagon coord].

(** The storage after [populate_storage] has inserted the hexagons of a
    list of coordinates, in order. *)
Definition store_all (grid_data : Builder.GridData) (coords : list CubeCoordinate)
    (store : gmap CubeCoordinate Builder.HexagonImpl)
    : gmap CubeCoordinate Builder.HexagonImpl :=
  foldl (λ store coord, <[coord := Builder.mkHexagonImpl grid_data coord]> store)
    store coords.

(** ** Loops *)

Section loops.
Context {A S : Type}.

Lemma for_nil (s : S) (body : A → S → S) : for_ [] s body = s.
Proof. reflexivity. Qed.

Lemma for_cons x (xs : list A) (s : S) body :
  for_ (x :: xs) s body = for_ xs (body x s) body.
Proof. reflexivity. Qed.

Lemma for_m_total (xs : list A) (s : S) (body : A → S → res S) (g : A → S → S) :
  (∀ x s, x ∈ xs → body x s = Ok (g x s)) →
  for_m xs s body = Ok (for_ xs s g).
Proof.
  revert s. induction xs as [|x xs IH]; intros s Hbody; [done|].
  rewrite for_cons. cbn [for_m]. rewrite Hbody by left.
  change (for_m xs (g x s) body = Ok (for_ xs (g x s) g)).
  apply IH. intros; apply Hbody; by right.
Qed.
End loops.

Lemma for_append {A B : Type} (xs : list A) (f : A → B) (acc : list B) :
  for_ xs acc (λ x acc, acc ++ [f x]) = acc ++ (f <$> xs).
Proof.
  revert acc. induction xs as [|x xs IH]; intros acc.
  - by rewrite for_nil, app_nil_r.
  - rewrite for_cons, IH, fmap_cons. by rewrite <- app_assoc.
Qed.

Lemma for_rows {B : Type} (ys : list Z) (xs : Z → list Z) (f : Z → Z → B) (acc : list B) :
  for_ ys acc (λ y acc, for_ (xs y) acc (λ x acc, acc ++ [f y x]))
  = acc ++ rows_of ys xs f.
Proof.
  unfold rows_of. revert acc. induction ys as [|y ys IH]; intros acc.
  - by rewrite for_nil, app_nil_r.
  - rewrite for_cons, for_append, IH, bind_cons. by rewrite <- app_assoc.
Qed.

(** The hexagon's outer loop: the state is the list built so far and the
    running [start_x]. *)
Lemma for_hexagon_rows (row : Z → Z → list CubeCoordinate) (n : nat) :
  ∀ a acc start_x,
    for_ (seqZ a (Z.of_nat n)) (acc, start_x)
      (λ y '(acc, start_x), (acc ++ row start_x y, start_x - 1))
    = (acc ++ (seqZ a (Z.of_nat n) ≫= λ y, row (start_x - (y - a)) y),
       start_x - Z.of_nat n).
Proof.
  induction n as [|n IH]; intros a acc start_x.
  - rewrite seqZ_nil by lia. cbn. rewrite app_nil_r. f_equal; lia.
  - rewrite seqZ_cons by lia. rewrite for_cons, bind_cons.
    replace (Z.pred (Z.of_nat (S n))) with (Z.of_nat n) by lia.
    rewrite IH, <- app_assoc. f_equal; [|lia]. f_equal.
    replace (start_x - (a - a)) with start_x by lia. f_equal.
    apply list_bind_ext; [|done]. intros y. f_equal; lia.
Qed.

(** ** Floating point facts *)

Lemma round_to_double_exact (n : Z) :
  Z.abs n < 2 ^ 53 → Float.round_to_double n = n.
Proof.
  intros Hn. unfold Float.round_to_double.
  destruct (Z.ltb_spec (Z.abs n) (2 ^ 53)); [done | lia].
Qed.

Lemma of_int_value (n : Z) (x : Float.float) :
  Float.of_int n = Ok x → x = inject_Z (Float.round_to_double n).
Proof. unfold Float.of_int. case_match; congruence. Qed.

Lemma of_int_exact (n : Z) :
  Z.abs n < 2 ^ 53 → Float.of_int n = Ok (inject_Z n).
Proof.
  intros Hn. unfold Float.of_int. rewrite round_to_double_exact by done.
  destruct (Z.leb_spec (2 ^ 1024) (Z.abs n)) as [Hbig|]; [|done].
  exfalso. assert (2 ^ 53 < 2 ^ 1024) by (apply Z.pow_lt_mono_r; lia). lia.
Qed.

Lemma floor_div_2 (v : Z) : Float.floor (inject_Z v / 2)%Q = v / 2.
Proof. unfold Float.floor. cbn. by rewrite Z.mul_1_r. Qed.

Lemma floor_div_4 (v : Z) : Float.floor (inject_Z v / 4)%Q = v / 4.
Proof. unfold Float.floor. cbn. by rewrite Z.mul_1_r. Qed.

(** [round(n / 4)] written with integer division: the nearest integer,
    and the even one of the two when [n / 4] is halfway. *)
Lemma round_div_4 (v : Z) :
  Float.round (inject_Z v / 4)%Q =
    if decide (v `mod` 8 = 2) then v / 4 else (v + 2) / 4.
Proof.
  unfold Float.round.
  pose proof (floor_div_4 v) as Hf. unfold Float.floor in Hf. rewrite Hf.
  unfold Qcompare. cbn.
  match goal with
  | |- context [?a ?= ?b] => destruct (Z.compare_spec a b) as [He|Hl|Hg]
  end;
    case_decide as Hm;
    try (destruct (Z.even (v `div` 4)) eqn:Hev;
         [apply Z.even_spec in Hev as [k Hk]
         |rewrite <- Z.negb_odd in Hev; apply negb_false_iff, Z.odd_spec in Hev as [k Hk]]);
    Z.div_mod_to_equations; lia.
Qed.

Lemma abs_sgn_mul (n x : Z) : n ≠ 0 → 0 ≤ x → Z.abs (Z.sgn n * x) = x.
Proof. intros Hn Hx. destruct n; [done|..]; cbn [Z.sgn]; lia. Qed.

(** The integers that convert to a double are those of magnitude below
    [2^1024 - 2^970], halfway between the largest double and [2^1024]. *)
Lemma round_to_double_fits (n : Z) :
  Z.abs (Float.round_to_double n) < 2 ^ 1024 ↔ Z.abs n < 2 ^ 1024 - 2 ^ 970.
Proof.
  unfold Float.round_to_double.
  destruct (Z.ltb_spec (Z.abs n) (2 ^ 53)) as [Hsmall|Hbig].
  { assert (2 ^ 53 < 2 ^ 1024 - 2 ^ 970) by reflexivity. lia. }
  assert (Hn : n ≠ 0) by (assert (0 < 2 ^ 53) by reflexivity; lia).
  set (a := Z.abs n) in *.
  assert (Ha : 0 < a) by (assert (0 < 2 ^ 53) by reflexivity; lia).
  pose proof (Z.log2_spec a Ha) as [Hlo Hhi].
  assert (HL : 53 ≤ Z.log2 a).
  { rewrite <- (Z.log2_pow2 53) by lia. by apply Z.log2_le_mono. }
  set (L := Z.log2 a) in *. set (k := L - 52).
  assert (Hk : 0 < 2 ^ k) by (apply Z.pow_pos_nonneg; lia).
  assert (HLk : 2 ^ L = 2 ^ 52 * 2 ^ k).
  { rewrite <- Z.pow_add_r by lia. f_equal; lia. }
  assert (HLk' : 2 ^ Z.succ L = 2 ^ 53 * 2 ^ k).
  { rewrite <- Z.pow_add_r by lia. f_equal; lia. }
  assert (Hq : 2 ^ 52 ≤ a `div` 2 ^ k < 2 ^ 53).
  { split.
    - apply Z.div_le_lower_bound; lia.
    - apply Z.div_lt_upper_bound; lia. }
  set (q' := if _ : bool then _ else _).
  assert (Hq' : q' = a `div` 2 ^ k ∨ q' = a `div` 2 ^ k + 1)
    by (subst q'; case_match; auto).
  rewrite abs_sgn_mul by (done || nia).
  destruct (Z.lt_trichotomy L 1023) as [Hlt|[Heq|Hgt]].
  - assert (Hk970 : 2 ^ k ≤ 2 ^ 970) by (apply Z.pow_le_mono_r; lia).
    assert (Hs : 2 ^ Z.succ L ≤ 2 ^ 1023) by (apply Z.pow_le_mono_r; lia).
    assert (H1 : 2 ^ 1023 = 2 ^ 53 * 2 ^ 970) by reflexivity.
    assert (H2 : 2 ^ 1024 = 2 ^ 54 * 2 ^ 970) by reflexivity.
    assert (0 < 2 ^ 970) by reflexivity.
    assert (H53 : 2 ^ 53 = 9007199254740992) by reflexivity.
    assert (H54 : 2 ^ 54 = 18014398509481984) by reflexivity.
    split; intros _; [lia|].
    assert (q' * 2 ^ k ≤ 2 ^ 53 * 2 ^ 970) by (apply Z.mul_le_mono_nonneg; lia).
    lia.
  - clear Hq'. subst q' k. rewrite Heq in *. clear Heq HL Hlo Hhi.
    change (1023 - 52) with 971 in *. change (971 - 1) with 970 in *.
    revert Hq HLk HLk' Hk.
    assert (H971 : 2 ^ 971 = 2 * 2 ^ 970) by reflexivity.
    assert (H1024 : 2 ^ 1024 = 18014398509481984 * 2 ^ 970) by reflexivity.
    assert (H52 : 2 ^ 52 = 4503599627370496) by reflexivity.
    assert (H53 : 2 ^ 53 = 9007199254740992) by reflexivity.
    assert (Hp : 0 < 2 ^ 970) by reflexivity.
    rewrite H971, H1024, H52, H53. generalize dependent (2 ^ 970). intros p _ _ Hp.
    intros Hq _ _ _.
    pose proof (Z.div_mod a (2 * p) ltac:(lia)) as Hdm.
    pose proof (Z.mod_pos_bound a (2 * p) ltac:(lia)) as Hr.
    set (q := a `div` (2 * p)) in *. set (r := a `mod` (2 * p)) in *.
    clearbody q r a.
    assert (Hpq : q ≤ 9007199254740990 → p * q ≤ p * 9007199254740990)
      by (intros; apply Z.mul_le_mono_nonneg_l; lia).
    assert (Hcase : q ≤ 9007199254740990 ∨ q = 9007199254740991) by lia.
    destruct (Z.ltb_spec p r) as [Hpr|Hpr]; cbn [orb];
      [|destruct (Z.eqb_spec r p) as [Hrp|Hrp]; cbn [andb];
        [destruct (Z.odd q) eqn:Hodd|]];
      (destruct Hcase as [Hc | ->]; [specialize (Hpq Hc)|]);
      try discriminate Hodd; lia.
  - assert (H1024 : 2 ^ 1024 ≤ 2 ^ L) by (apply Z.pow_le_mono_r; lia).
    assert (0 < 2 ^ 970) by reflexivity.
    split; intros Hx; [|lia]. exfalso.
    assert (2 ^ 52 * 2 ^ k ≤ q' * 2 ^ k) by (apply Z.mul_le_mono_nonneg_r; lia).
    lia.
Qed.

Lemma of_int_ok_iff (n : Z) :
  (∃ x, Float.of_int n = Ok x) ↔ Z.abs n < 2 ^ 1024 - 2 ^ 970.
Proof.
  rewrite <- round_to_double_fits. unfold Float.of_int.
  destruct (Z.leb_spec (2 ^ 1024) (Z.abs (Float.round_to_double n))).
  - split; [intros [x [=]] | lia].
  - split; [done | eauto].
Qed.

Lemma of_int_overflow (n : Z) :
  2 ^ 1024 - 2 ^ 970 ≤ Z.abs n → Float.of_int n = Raise OverflowError.
Proof.
  intros Hn. pose proof (round_to_double_fits n) as Hfit.
  unfold Float.of_int.
  destruct (Z.leb_spec (2 ^ 1024) (Z.abs (Float.round_to_double n))); [done | lia].
Qed.

(** ** The strategies compute their closed forms *)

Lemma rectangle_fetch_closed `{!CoordinateConverter} (width height : Z) (orientation : string) :
  Rectangle.fetch_grid_coords width height orientation
  = Ok (rows_of (range 0 height) (λ _, range 0 width)
          (λ y x, mkCubeCoordinate (offset_coords_to_cube_x x y orientation)
                                   (offset_coords_to_cube_z x y orientation))).
Proof.
  unfold Rectangle.fetch_grid_coords.
  by rewrite (for_rows _ (λ _, range 0 width)
                (λ y x, mkCubeCoordinate (offset_coords_to_cube_x x y orientation)
                                         (offset_coords_to_cube_z x y orientation))).
Qed.

Lemma triangle_fetch_closed (width height : Z) (orientation : string) :
  Triangle.fetch_grid_coords width height orientation
  = Ok (rows_of (range 0 height) (λ z, range 0 (height - z))
          (λ z x, mkCubeCoordinate x z)).
Proof.
  unfold Triangle.fetch_grid_coords.
  by rewrite (for_rows _ (λ z, range 0 (height - z)) (λ z x, mkCubeCoordinate x z)).
Qed.

Lemma trapezoid_fetch_closed (width height : Z) (orientation : string) :
  Trapezoid.fetch_grid_coords width height orientation
  = Ok (rows_of (range 0 height) (λ _, range 0 width)
          (λ z x, mkCubeCoordinate x z)).
Proof.
  unfold Trapezoid.fetch_grid_coords.
  by rewrite (for_rows _ (λ _, range 0 width) (λ z x, mkCubeCoordinate x z)).
Qed.

Lemma hexagon_fetch_closed (width height : Z) (orientation : string) :
  Hexagon.fetch_grid_coords width height orientation
  = hexagon_of_double height orientation <$> Float.of_int height.
Proof.
  unfold Hexagon.fetch_grid_coords, hexagon_of_double, Float.truediv.
  destruct (Float.of_int height) as [x|e]; [|done].
  destruct (decide (FLAT_TOP = orientation)) as [Hflat|Hflat];
    cbn [mbind res_bind fmap res_fmap mret res_ret];
    match goal with
    | |- _ = Ok (hexagon_rows _ ?hex_radius ?start_x ?z_shift) =>
        rewrite (for_m_total _ _ _
          (λ y '(coords, sx),
             (coords ++ hexagon_row hex_radius (start_x - hex_radius) sx y (y - z_shift),
              sx - 1)));
        [ assert (Hn : height - 0 = Z.of_nat (Z.to_nat (height - 0)) ∨ height - 0 ≤ 0)
            by lia;
          unfold hexagon_rows, range;
          destruct Hn as [Hn|Hn];
          [ rewrite Hn, for_hexagon_rows; cbn [mbind res_bind mret res_ret app];
            f_equal; apply list_bind_ext; [|done];
            intros y; f_equal; lia
          | by rewrite seqZ_nil ]
        | intros y [coords sx] _;
          rewrite (for_m_total _ _ _
            (λ x coords, coords ++ [mkCubeCoordinate x (y - z_shift)]));
          [ by rewrite for_append
          | intros x0 acc _; by rewrite ?Z.sub_0_r ] ]
    end.
Qed.

(** ** Counting, distinctness and rows of an enumeration *)

Lemma length_range (lo hi : Z) : Z.of_nat (length (range lo hi)) = Z.max 0 (hi - lo).
Proof. unfold range. rewrite length_seqZ. lia. Qed.

Lemma elem_of_range (lo hi k : Z) : k ∈ range lo hi ↔ lo ≤ k < hi.
Proof. unfold range. rewrite elem_of_seqZ. lia. Qed.

Lemma NoDup_range (lo hi : Z) : NoDup (range lo hi).
Proof. apply NoDup_seqZ. Qed.

Lemma range_empty (lo hi : Z) : hi ≤ lo → range lo hi = [].
Proof. intros. unfold range. apply seqZ_nil. lia. Qed.

Lemma sumZ_cons (f : Z → Z) (y : Z) (l : list Z) :
  sumZ f (y :: l) = f y + sumZ f l.
Proof. reflexivity. Qed.

Lemma sumZ_app (f : Z → Z) (l1 l2 : list Z) :
  sumZ f (l1 ++ l2) = sumZ f l1 + sumZ f l2.
Proof.
  induction l1 as [|y l1 IH]; [done|].
  rewrite <- app_comm_cons, !sumZ_cons, IH. lia.
Qed.

Lemma sumZ_ext (f g : Z → Z) (l : list Z) :
  (∀ y, y ∈ l → f y = g y) → sumZ f l = sumZ g l.
Proof.
  induction l as [|y l IH]; intros Hfg; [done|].
  rewrite !sumZ_cons, Hfg by left. rewrite IH; [done|]. intros; apply Hfg; by right.
Qed.

Lemma sumZ_const (c : Z) (l : list Z) : sumZ (λ _, c) l = Z.of_nat (length l) * c.
Proof.
  induction l as [|y l IH]; [done|].
  rewrite sumZ_cons, IH. cbn [length]. lia.
Qed.

(** Twice the sum of an arithmetic progression. *)
Lemma sumZ_affine (c k : Z) (n : nat) (a : Z) :
  2 * sumZ (λ y, c + k * y) (seqZ a (Z.of_nat n))
  = Z.of_nat n * (2 * c + k * (2 * a + Z.of_nat n - 1)).
Proof.
  induction n as [|n IH].
  - rewrite seqZ_nil by lia. cbn. lia.
  - rewrite seqZ_S, sumZ_app, Z.mul_add_distr_l, IH, sumZ_cons.
    change (sumZ _ []) with 0. rewrite Nat2Z.inj_succ. ring.
Qed.

Lemma length_bind_sumZ {A : Type} (g : Z → list A) (ys : list Z) :
  Z.of_nat (length (ys ≫= g)) = sumZ (λ y, Z.of_nat (length (g y))) ys.
Proof.
  induction ys as [|y ys IH]; [done|].
  by rewrite bind_cons, length_app, Nat2Z.inj_add, IH, sumZ_cons.
Qed.

Lemma length_rows_of {A : Type} (ys : list Z) (xs : Z → list Z) (f : Z → Z → A) :
  Z.of_nat (length (rows_of ys xs f)) = sumZ (λ y, Z.of_nat (length (xs y))) ys.
Proof.
  unfold rows_of. rewrite length_bind_sumZ. apply sumZ_ext.
  intros y _. by rewrite length_fmap.
Qed.

Lemma NoDup_rows_of {A : Type} (ys : list Z) (xs : Z → list Z) (f : Z → Z → A) :
  NoDup ys →
  (∀ y, y ∈ ys → NoDup (xs y)) →
  (∀ y x y' x', y ∈ ys → x ∈ xs y → y' ∈ ys → x' ∈ xs y' →
     f y x = f y' x' → y = y' ∧ x = x') →
  NoDup (rows_of ys xs f).
Proof.
  intros Hys Hxs Hinj. unfold rows_of. apply NoDup_bind; [| |done].
  - intros y1 y2 c Hy1 Hy2 (x1 & -> & Hx1)%list_elem_of_fmap (x2 & Heq & Hx2)%list_elem_of_fmap.
    by destruct (Hinj y1 x1 y2 x2).
  - intros y Hy. apply NoDup_fmap_2_strong; [|by apply Hxs].
    intros x1 x2 Hx1 Hx2 Heq. by destruct (Hinj y x1 y x2).
Qed.

Lemma row_at_all (z : Z) (l : list CubeCoordinate) :
  (∀ c, c ∈ l → gridZ c = z) → row_at z l = l.
Proof.
  unfold row_at. induction l as [|c l IH]; intros Hl; [done|].
  rewrite filter_cons_True by (apply Hl; left). f_equal.
  apply IH. intros; apply Hl; by right.
Qed.

Lemma row_at_none (z : Z) (l : list CubeCoordinate) :
  (∀ c, c ∈ l → gridZ c ≠ z) → row_at z l = [].
Proof.
  unfold row_at. induction l as [|c l IH]; intros Hl; [done|].
  rewrite filter_cons_False by (apply Hl; left).
  apply IH. intros; apply Hl; by right.
Qed.

Lemma row_at_app (z : Z) (l1 l2 : list CubeCoordinate) :
  row_at z (l1 ++ l2) = row_at z l1 ++ row_at z l2.
Proof. apply filter_app. Qed.

(** Selecting one row of an enumeration whose rows have distinct [gridZ]. *)
Lemma row_at_bind (ys : list Z) (g : Z → list CubeCoordinate) (z_of : Z → Z) (y0 : Z) :
  NoDup ys → y0 ∈ ys →
  (∀ y c, y ∈ ys → c ∈ g y → gridZ c = z_of y) →
  (∀ y, y ∈ ys → z_of y = z_of y0 → y = y0) →
  row_at (z_of y0) (ys ≫= g) = g y0.
Proof.
  intros Hnd Hin Hz Hinj.
  assert (Hother : ∀ l, y0 ∉ l → (∀ y, y ∈ l → y ∈ ys) →
                        row_at (z_of y0) (l ≫= g) = []).
  { induction l as [|y l IH]; intros Hnot Hsub; [done|].
    rewrite bind_cons, row_at_app, IH; [|set_solver..].
    rewrite row_at_none; [done|]. intros c Hc Heq.
    assert (y = y0); [|set_solver].
    apply Hinj; [apply Hsub; left|].
    rewrite <- Heq. symmetry. apply Hz; [apply Hsub; left|done]. }
  assert (Hgen : ∀ l, NoDup l → y0 ∈ l → (∀ y, y ∈ l → y ∈ ys) →
                      row_at (z_of y0) (l ≫= g) = g y0).
  { induction l as [|y l IH]; intros Hl Hy0 Hsub; [by inv Hy0|].
    rewrite bind_cons, row_at_app. inv Hl.
    apply elem_of_cons in Hy0 as [<-|Hy0].
    - rewrite row_at_all, Hother, app_nil_r; [done|done|set_solver|].
      intros c Hc. apply Hz; [|done]. apply Hsub; left.
    - rewrite row_at_none, IH; [done|done|done|set_solver|].
      intros c Hc Heq. assert (y = y0); [|set_solver].
      apply Hinj; [apply Hsub; left|].
      rewrite <- Heq. symmetry. apply Hz; [apply Hsub; left|done]. }
  by apply Hgen.
Qed.

(** ** The hexagon enumeration *)

Lemma length_hexagon_row (hex_radius min_x start_x y z : Z) :
  Z.of_nat (length (hexagon_row hex_radius min_x start_x y z))
  = Z.max 0 (2 * hex_radius - Z.abs (hex_radius - y) + 1).
Proof. unfold hexagon_row. rewrite length_fmap, length_range. lia. Qed.

Lemma gridZ_hexagon_row (hex_radius min_x start_x y z : Z) (c : CubeCoordinate) :
  c ∈ hexagon_row hex_radius min_x start_x y z → gridZ c = z.
Proof. unfold hexagon_row. by intros (x & -> & _)%list_elem_of_fmap. Qed.

Lemma NoDup_hexagon_row (hex_radius min_x start_x y z : Z) :
  NoDup (hexagon_row hex_radius min_x start_x y z).
Proof.
  unfold hexagon_row. apply NoDup_fmap_2_strong; [|apply NoDup_range].
  by intros x1 x2 _ _ [=].
Qed.

Lemma length_hexagon_rows (hex_radius start_x z_shift : Z) :
  0 ≤ hex_radius →
  Z.of_nat (length (hexagon_rows (2 * hex_radius + 1) hex_radius start_x z_shift))
  = 3 * hex_radius ^ 2 + 3 * hex_radius + 1.
Proof.
  intros Hr. unfold hexagon_rows. rewrite length_bind_sumZ.
  rewrite (sumZ_ext _ (λ y, 2 * hex_radius - Z.abs (hex_radius - y) + 1)).
  2:{ intros y Hy%elem_of_range. rewrite length_hexagon_row. lia. }
  unfold range.
  replace (2 * hex_radius + 1 - 0) with ((hex_radius + 1) + hex_radius) by lia.
  rewrite seqZ_app, sumZ_app by lia.
  rewrite (sumZ_ext _ (λ y, (hex_radius + 1) + 1 * y) (seqZ 0 _)).
  2:{ intros y Hy%elem_of_seqZ. lia. }
  rewrite (sumZ_ext _ (λ y, (3 * hex_radius + 1) + (-1) * y) (seqZ (0 + _) _)).
  2:{ intros y Hy%elem_of_seqZ. lia. }
  pose proof (sumZ_affine (hex_radius + 1) 1 (Z.to_nat (hex_radius + 1)) 0) as H1.
  pose proof (sumZ_affine (3 * hex_radius + 1) (-1) (Z.to_nat hex_radius)
                (0 + (hex_radius + 1))) as H2.
  rewrite !Z2Nat.id in H1, H2 by lia. nia.
Qed.

Lemma NoDup_hexagon_rows (grid_size hex_radius start_x z_shift : Z) :
  NoDup (hexagon_rows grid_size hex_radius start_x z_shift).
Proof.
  unfold hexagon_rows. apply NoDup_bind; [| |apply NoDup_range].
  - intros y1 y2 c _ _ H1%gridZ_hexagon_row H2%gridZ_hexagon_row. lia.
  - intros y _. apply NoDup_hexagon_row.
Qed.

Lemma row_at_hexagon_rows (grid_size hex_radius start_x z_shift y : Z) :
  0 ≤ y < grid_size →
  row_at (y - z_shift) (hexagon_rows grid_size hex_radius start_x z_shift)
  = hexagon_row hex_radius (start_x - hex_radius) (start_x - y) y (y - z_shift).
Proof.
  intros Hy. unfold hexagon_rows.
  apply (row_at_bind (range 0 grid_size)
           (λ y, hexagon_row hex_radius (start_x - hex_radius) (start_x - y) y
                   (y - z_shift))
           (λ y, y - z_shift) y).
  - apply NoDup_range.
  - apply elem_of_range. lia.
  - intros y' c _. apply gridZ_hexagon_row.
  - intros y' _ ?. lia.
Qed.

Lemma hexagon_row_translate (hex_radius min_x start_x y z dx dz : Z) :
  translate dx dz <$> hexagon_row hex_radius min_x start_x y z
  = hexagon_row hex_radius (min_x + dx) (start_x + dx) y (z + dz).
Proof.
  unfold hexagon_row, range. rewrite <- list_fmap_compose.
  replace (Z.max (start_x + dx) (min_x + dx)) with (dx + Z.max start_x min_x) by lia.
  rewrite <- fmap_add_seqZ, <- list_fmap_compose.
  match goal with |- _ <$> seqZ _ ?a = _ <$> seqZ _ ?b => replace b with a by lia end.
  apply list_fmap_ext. intros _ x _. unfold translate; cbn. f_equal; lia.
Qed.

Lemma fmap_bind_list {A B : Type} (f : A → B) (g : Z → list A) (ys : list Z) :
  f <$> (ys ≫= g) = ys ≫= λ y, f <$> g y.
Proof.
  induction ys as [|y ys IH]; [done|].
  by rewrite !bind_cons, fmap_app, IH.
Qed.

Lemma hexagon_rows_translate (grid_size hex_radius start_x z_shift start_x' z_shift' : Z) :
  hexagon_rows grid_size hex_radius start_x z_shift
  = translate (start_x - start_x') (z_shift' - z_shift)
      <$> hexagon_rows grid_size hex_radius start_x' z_shift'.
Proof.
  unfold hexagon_rows. rewrite fmap_bind_list.
  apply list_bind_ext; [|done]. intros y.
  rewrite hexagon_row_translate. f_equal; lia.
Qed.

(** ** Size validation *)

Lemma abs_mod_2_odd (n : Z) : Z.abs (n `mod` 2) = 1 ↔ Z.Odd n.
Proof.
  split.
  - intros Hn. exists (n `div` 2). Z.div_mod_to_equations. lia.
  - intros [m ->]. Z.div_mod_to_equations. lia.
Qed.

Lemma check_size_ok_iff `{!CoordinateConverter} (s : shape) (width height : Z) :
  check_size (strategy_of s) width height = Ok () ↔ size_rule s width height.
Proof.
  destruct s; cbn;
    unfold Rectangle.check_size, Triangle.check_size, Trapezoid.check_size,
      Hexagon.check_size;
    try pose proof (abs_mod_2_odd height);
    repeat match goal with
    | |- context [?a <? ?b] => destruct (Z.ltb_spec a b)
    | |- context [?a =? ?b] => destruct (Z.eqb_spec a b)
    end; cbn; split; (done || lia || (intros; intuition (lia || done))).
Qed.


(** ** Hexagon sizes whose double is exact *)

Lemma hexagon_fetch_exact (width height : Z) (orientation : string) :
  Z.abs height < 2 ^ 53 →
  Hexagon.fetch_grid_coords width height orientation
  = Ok (hexagon_rows height (height / 2) (hexagon_start_x height orientation)
          (hexagon_z_shift height orientation)).
Proof.
  intros Hh. rewrite hexagon_fetch_closed, of_int_exact by done.
  unfold hexagon_of_double, hexagon_start_x, hexagon_z_shift. cbn [fmap res_fmap].
  by rewrite floor_div_2, floor_div_4.
Qed.

Lemma hexagon_fetch_overflow (width height : Z) (orientation : string) :
  2 ^ 1024 - 2 ^ 970 ≤ Z.abs height →
  Hexagon.fetch_grid_coords width height orientation = Raise OverflowError.
Proof. intros Hh. by rewrite hexagon_fetch_closed, of_int_overflow. Qed.

(** ** Counts *)

Lemma length_rectangle_rows {A : Type} (width height : Z) (f : Z → Z → A) :
  0 ≤ width → 0 ≤ height →
  Z.of_nat (length (rows_of (range 0 height) (λ _, range 0 width) f)) = width * height.
Proof.
  intros Hw Hh. rewrite length_rows_of, sumZ_const, !length_range. lia.
Qed.

Lemma length_triangle_rows {A : Type} (height : Z) (f : Z → Z → A) :
  0 ≤ height →
  Z.of_nat (length (rows_of (range 0 height) (λ z, range 0 (height - z)) f))
  = height * (height + 1) / 2.
Proof.
  intros Hh. rewrite length_rows_of.
  rewrite (sumZ_ext _ (λ z, height + (-1) * z)).
  2:{ intros z Hz%elem_of_range. rewrite length_range. lia. }
  pose proof (sumZ_affine height (-1) (Z.to_nat height) 0) as Hsum.
  unfold range. rewrite Z.sub_0_r. rewrite Z2Nat.id in Hsum by done.
  apply Z.div_unique_exact; [done|]. rewrite Hsum. ring.
Qed.

(** The hexagon loop run over two rows fewer than [2 * hex_radius + 1]. *)
Lemma length_hexagon_rows_short (hex_radius start_x z_shift : Z) :
  2 ≤ hex_radius →
  Z.of_nat (length (hexagon_rows (2 * hex_radius - 1) hex_radius start_x z_shift))
  = 3 * hex_radius ^ 2 + hex_radius - 2.
Proof.
  intros Hr. unfold hexagon_rows. rewrite length_bind_sumZ.
  rewrite (sumZ_ext _ (λ y, 2 * hex_radius - Z.abs (hex_radius - y) + 1)).
  2:{ intros y Hy%elem_of_range. rewrite length_hexagon_row. lia. }
  unfold range.
  replace (2 * hex_radius - 1 - 0) with ((hex_radius + 1) + (hex_radius - 2)) by lia.
  rewrite seqZ_app, sumZ_app by lia.
  rewrite (sumZ_ext _ (λ y, (hex_radius + 1) + 1 * y) (seqZ 0 _)).
  2:{ intros y Hy%elem_of_seqZ. lia. }
  rewrite (sumZ_ext _ (λ y, (3 * hex_radius + 1) + (-1) * y) (seqZ (0 + _) _)).
  2:{ intros y Hy%elem_of_seqZ. lia. }
  pose proof (sumZ_affine (hex_radius + 1) 1 (Z.to_nat (hex_radius + 1)) 0) as H1.
  pose proof (sumZ_affine (3 * hex_radius + 1) (-1) (Z.to_nat (hex_radius - 2))
                (0 + (hex_radius + 1))) as H2.
  rewrite !Z2Nat.id in H1, H2 by lia. nia.
Qed.

(** At the accepted size 2^53 + 3 the double of the height is 2^53 + 4:
    the loop runs over 2^53 + 3 rows with [hex_radius] 2^52 + 2. *)
Lemma hexagon_fetch_inexact_height (width : Z) :
  Hexagon.check_size (2 ^ 53 + 3) (2 ^ 53 + 3) = Ok ()
  ∧ Float.of_int (2 ^ 53 + 3) = Ok (inject_Z (2 ^ 53 + 4))
  ∧ Hexagon.fetch_grid_coords width (2 ^ 53 + 3) "POINTY_TOP"
    = Ok (hexagon_rows (2 * (2 ^ 52 + 2) - 1) (2 ^ 52 + 2)
            (Float.round (inject_Z (2 ^ 53 + 4) / 4)%Q) 0).
Proof.
  assert (Hx : Float.of_int (2 ^ 53 + 3) = Ok (inject_Z (2 ^ 53 + 4)))
    by (vm_compute; reflexivity).
  assert (Hhalf : (2 ^ 53 + 4) `div` 2 = 2 ^ 52 + 2) by (vm_compute; reflexivity).
  assert (Hrows : 2 * (2 ^ 52 + 2) - 1 = 2 ^ 53 + 3) by (vm_compute; reflexivity).
  split_and!; [by vm_compute | exact Hx |].
  rewrite hexagon_fetch_closed, Hx, Hrows. cbn [fmap res_fmap].
  unfold hexagon_of_double.
  destruct (decide (FLAT_TOP = "POINTY_TOP")) as [Heq|_]; [discriminate Heq|].
  by rewrite floor_div_2, Hhalf.
Qed.

(** C1, as stated: the hexagon count 3*hexRadius^2 + 3*hexRadius + 1 with
    hexRadius = floor(height/2) does not hold for every accepted size.  At
    the accepted size 2^53 + 3 the code's floor(height / 2.0) is 2^52 + 2,
    one more than floor(height/2), and the list has
    3*R^2 + R - 2 coordinates for R = 2^52 + 2. *)
Lemma hexagon_count_inexact_height :
  Hexagon.check_size (2 ^ 53 + 3) (2 ^ 53 + 3) = Ok ()
  ∧ ∃ coords,
      Hexagon.fetch_grid_coords (2 ^ 53 + 3) (2 ^ 53 + 3) "POINTY_TOP" = Ok coords
      ∧ Z.of_nat (length coords) = 3 * (2 ^ 52 + 2) ^ 2 + (2 ^ 52 + 2) - 2
      ∧ Z.of_nat (length coords)
        ≠ expected_count Hexagonal (2 ^ 53 + 3) (2 ^ 53 + 3).
Proof.
  assert (Hr : 2 ≤ 2 ^ 52 + 2) by (by vm_compute).
  pose proof (length_hexagon_rows_short (2 ^ 52 + 2)
                (Float.round (inject_Z (2 ^ 53 + 4) / 4)%Q) 0 Hr) as Hlen.
  assert (Hne : 3 * (2 ^ 52 + 2) ^ 2 + (2 ^ 52 + 2) - 2
                ≠ expected_count Hexagonal (2 ^ 53 + 3) (2 ^ 53 + 3))
    by (by vm_compute).
  destruct (hexagon_fetch_inexact_height (2 ^ 53 + 3)) as (Hsize & _ & Hfetch).
  split; [exact Hsize|]. eexists. split; [exact Hfetch|].
  split; [exact Hlen|]. rewrite Hlen. exact Hne.
Qed.

(** C1, amended: for every size that the shape's [check_size] accepts, the
    list returned by [fetch_grid_coords] has width*height elements for the
    rectangle and the trapezoid, height*(height+1)/2 for the triangle, and,
    for heights below 2^53, 3*hexRadius^2 + 3*hexRadius + 1 with
    hexRadius = floor(height/2) for the hexagon, whatever the orientation. *)
Theorem fetch_grid_coords_length `{!CoordinateConverter}
    (s : shape) (width height : Z) (orientation : string) :
  check_size (strategy_of s) width height = Ok () →
  (s = Hexagonal → height < 2 ^ 53) →
  ∃ coords,
    fetch_grid_coords (strategy_of s) width height orientation = Ok coords
    ∧ Z.of_nat (length coords) = expected_count s width height.
Proof.
  intros Hsize%check_size_ok_iff Hexact. destruct s; cbn in *.
  - rewrite rectangle_fetch_closed. eexists; split; [done|].
    apply length_rectangle_rows; lia.
  - rewrite triangle_fetch_closed. eexists; split; [done|].
    apply length_triangle_rows; lia.
  - rewrite trapezoid_fetch_closed. eexists; split; [done|].
    apply length_rectangle_rows; lia.
  - destruct Hsize as (Hw & Hh & -> & [r Hr]).
    rewrite hexagon_fetch_exact by (specialize (Hexact eq_refl); lia).
    eexists; split; [done|].
    assert (Hdiv : height `div` 2 = r) by (Z.div_mod_to_equations; lia).
    rewrite Hdiv. rewrite Hr at 1. apply length_hexagon_rows. lia.
Qed.

Lemma fetch_grid_coords_length_witness :
  ∃ coords,
    Hexagon.fetch_grid_coords 5 5 "POINTY_TOP" = Ok coords
    ∧ Z.of_nat (length coords) = 19.
Proof.
  apply (fetch_grid_coords_length (H := standard_converter)
           Hexagonal 5 5 "POINTY_TOP"); [reflexivity | intros _; reflexivity].
Defined.


(** ** Distinctness *)

Lemma standard_converter_injective (width height : Z) (orientation : string) :
  converter_injective_on (H := standard_converter) width height orientation.
Proof.
  intros x y x' y' _ _ _ _. cbn. case_decide; intros Hx Hz; subst; split; lia.
Qed.

Lemma NoDup_axial_rows (ys : list Z) (xs : Z → list Z) :
  NoDup ys → (∀ y, NoDup (xs y)) →
  NoDup (rows_of ys xs (λ z x, mkCubeCoordinate x z)).
Proof.
  intros Hys Hxs. apply NoDup_rows_of; [done|auto|].
  by intros y x y' x' _ _ _ _ [= -> ->].
Qed.

(** C4: for every size that the shape's [check_size] accepts and every
    orientation, a sequence returned by [fetch_grid_coords] has no two
    equal coordinates, for each of the four strategies, and one is
    returned (for the hexagon: when the height converts to a double).  The
    rectangle takes its coordinates from the converter, which must not
    merge two cells of the rectangle. *)
Theorem fetch_grid_coords_distinct `{!CoordinateConverter}
    (s : shape) (width height : Z) (orientation : string) :
  check_size (strategy_of s) width height = Ok () →
  (s = Rectangular → converter_injective_on width height orientation) →
  (∀ coords,
     fetch_grid_coords (strategy_of s) width height orientation = Ok coords →
     NoDup coords)
  ∧ ((s = Hexagonal → height < 2 ^ 1024 - 2 ^ 970) →
     ∃ coords,
       fetch_grid_coords (strategy_of s) width height orientation = Ok coords).
Proof.
  intros Hsize%check_size_ok_iff Hconv. destruct s; cbn in *.
  - rewrite rectangle_fetch_closed. split; [intros coords [= <-] | by eexists].
    apply NoDup_rows_of; [apply NoDup_range | intros; apply NoDup_range |].
    intros y x y' x' Hy%elem_of_range Hx%elem_of_range Hy'%elem_of_range
      Hx'%elem_of_range [= Hcx Hcz].
    destruct (Hconv eq_refl x y x' y'); auto.
  - rewrite triangle_fetch_closed. split; [intros coords [= <-] | by eexists].
    apply NoDup_axial_rows; [apply NoDup_range | intros; apply NoDup_range].
  - rewrite trapezoid_fetch_closed. split; [intros coords [= <-] | by eexists].
    apply NoDup_axial_rows; [apply NoDup_range | intros; apply NoDup_range].
  - rewrite hexagon_fetch_closed. split.
    + destruct (Float.of_int height) as [x|e]; intros coords [= <-].
      apply NoDup_hexagon_rows.
    + intros Hfit. destruct (proj2 (of_int_ok_iff height)) as [x ->]; [|by eexists].
      specialize (Hfit eq_refl). lia.
Qed.

Lemma fetch_grid_coords_distinct_witness :
  (∀ coords,
     Rectangle.fetch_grid_coords (H := standard_converter) 3 2 "POINTY_TOP" = Ok coords →
     NoDup coords)
  ∧ ∃ coords,
      Rectangle.fetch_grid_coords (H := standard_converter) 3 2 "POINTY_TOP" = Ok coords.
Proof.
  destruct (fetch_grid_coords_distinct (H := standard_converter)
              Rectangular 3 2 "POINTY_TOP") as [Hdistinct Hreturns].
  - reflexivity.
  - intros _. apply standard_converter_injective.
  - split; [exact Hdistinct|]. apply Hreturns. intros [=].
Defined.

(** ** Rows of the hexagon *)

(** C3, as worded: with [startX] the running value in both places of
    [max(startX, startX - hexRadius)], the claimed rows are not the ones the
    code emits.  For the 3 by 3 flat-top hexagon the code's last row is
    (0,2),(1,2), the worded row is (-1,2),(0,2). *)
Lemma hexagon_rows_as_worded_differ :
  Hexagon.check_size 3 3 = Ok ()
  ∧ Hexagon.fetch_grid_coords 3 3 FLAT_TOP
    = Ok [mkCubeCoordinate 1 0; mkCubeCoordinate 2 0;
          mkCubeCoordinate 0 1; mkCubeCoordinate 1 1; mkCubeCoordinate 2 1;
          mkCubeCoordinate 0 2; mkCubeCoordinate 1 2]
  ∧ hexagon_rows_as_worded 3 (3 / 2) (hexagon_start_x 3 FLAT_TOP)
      (hexagon_z_shift 3 FLAT_TOP)
    = [mkCubeCoordinate 1 0; mkCubeCoordinate 2 0;
       mkCubeCoordinate 0 1; mkCubeCoordinate 1 1; mkCubeCoordinate 2 1;
       mkCubeCoordinate (-1) 2; mkCubeCoordinate 0 2]
  ∧ Hexagon.fetch_grid_coords 3 3 FLAT_TOP
    ≠ Ok (hexagon_rows_as_worded 3 (3 / 2) (hexagon_start_x 3 FLAT_TOP)
            (hexagon_z_shift 3 FLAT_TOP)).
Proof. split_and!; [reflexivity | reflexivity | reflexivity | by vm_compute]. Qed.

Lemma hexagon_of_double_rows (height size : Z) (orientation : string) :
  hexagon_of_double height orientation (inject_Z size)
  = range 0 height ≫= λ y,
      let startX0 :=
        if decide (FLAT_TOP = orientation)
        then size / 2 else Float.round (inject_Z size / 4)%Q in
      let z := if decide (FLAT_TOP = orientation) then y - size / 4 else y in
      let lo := Z.max (startX0 - y) (startX0 - size / 2) in
      (λ x, mkCubeCoordinate x z)
        <$> range lo (lo + 2 * (size / 2) - Z.abs (size / 2 - y) + 1).
Proof.
  unfold hexagon_of_double, hexagon_rows, hexagon_row.
  rewrite floor_div_2, floor_div_4.
  apply list_bind_ext; [|done]. intros y.
  case_decide; [done|]. by rewrite Z.sub_0_r.
Qed.

(** C3, amended: for every valid hexagon size and every orientation,
    row [y] in [0, gridSize) holds the coordinates (x, z) for x from
    max(startX, minX) through max(startX, minX) + 2*hexRadius - distFromMid
    inclusive, where minX = startX - hexRadius is fixed before the first
    row, startX starts at floor(gridSize/2) for flat-top and
    round(gridSize/4) otherwise and has lost 1 after each row,
    distFromMid = abs(hexRadius - y), and z = y - floor(gridSize/4) for
    flat-top, otherwise z = y.  The quotients are taken of the double of
    gridSize, which is gridSize itself below 2^53. *)
Theorem hexagon_rows_emitted (width height : Z) (orientation : string) :
  Hexagon.check_size width height = Ok () →
  let gridSize := height in
  let rows (size : Z) :=
    let hexRadius := size / 2 in
    let startX0 :=
      if decide (FLAT_TOP = orientation)
      then size / 2 else Float.round (inject_Z size / 4)%Q in
    let minX := startX0 - hexRadius in
    range 0 gridSize ≫= λ y,
      let startX := startX0 - y in
      let distFromMid := Z.abs (hexRadius - y) in
      let z := if decide (FLAT_TOP = orientation) then y - size / 4 else y in
      let lo := Z.max startX minX in
      (λ x, mkCubeCoordinate x z)
        <$> range lo (lo + 2 * hexRadius - distFromMid + 1) in
  Hexagon.fetch_grid_coords width height orientation
  = (λ _, rows (Float.round_to_double gridSize)) <$> Float.of_int gridSize
  ∧ (gridSize < 2 ^ 53 →
     Hexagon.fetch_grid_coords width height orientation = Ok (rows gridSize)).
Proof.
  intros Hsize. cbn zeta.
  assert (0 < height).
  { unfold Hexagon.check_size in Hsize.
    destruct (Z.ltb_spec 0 height); [done|].
    rewrite andb_false_r in Hsize. discriminate Hsize. }
  rewrite hexagon_fetch_closed. split.
  - destruct (Float.of_int height) as [x|e] eqn:Hx; [|done].
    apply of_int_value in Hx. subst x. cbn [fmap res_fmap]. f_equal.
    apply hexagon_of_double_rows.
  - intros Hexact. rewrite of_int_exact by lia. cbn [fmap res_fmap]. f_equal.
    apply hexagon_of_double_rows.
Qed.

Lemma hexagon_rows_emitted_witness :
  Hexagon.fetch_grid_coords 5 5 "POINTY_TOP"
  = Ok (range 0 5 ≫= λ y,
          (λ x, mkCubeCoordinate x y)
            <$> range (Z.max (1 - y) (-1))
                  (Z.max (1 - y) (-1) + 2 * 2 - Z.abs (2 - y) + 1)).
Proof.
  apply (hexagon_rows_emitted 5 5 "POINTY_TOP"); reflexivity.
Defined.

(** ** Rows of the triangle *)

Lemma row_at_axial_rows (ys : list Z) (xs : Z → list Z) (z : Z) :
  NoDup ys → z ∈ ys →
  row_at z (rows_of ys xs (λ z x, mkCubeCoordinate x z))
  = (λ x, mkCubeCoordinate x z) <$> xs z.
Proof.
  intros Hys Hz. unfold rows_of.
  apply (row_at_bind ys (λ z, (λ x, mkCubeCoordinate x z) <$> xs z) id z);
    [done|done| |done].
  by intros y c _ (x & -> & _)%list_elem_of_fmap.
Qed.

(** C6: for every valid triangle size and every orientation, the triangle
    strategy returns exactly the coordinates (x, z) for z in [0, height) and
    x in [0, height - z), row by row; the row at z has height - z
    coordinates, so each row is strictly shorter than the one before; for
    height 3 these are (0,0),(1,0),(2,0),(0,1),(1,1),(0,2). *)
Theorem triangle_rows_emitted :
  (∀ width height orientation,
     Triangle.check_size width height = Ok () →
     ∃ coords,
       Triangle.fetch_grid_coords width height orientation = Ok coords
       ∧ coords = (range 0 height ≫= λ z,
                     (λ x, mkCubeCoordinate x z) <$> range 0 (height - z))
       ∧ (∀ z, 0 ≤ z < height →
            row_at z coords = (λ x, mkCubeCoordinate x z) <$> range 0 (height - z)
            ∧ Z.of_nat (length (row_at z coords)) = height - z)
       ∧ (∀ z, 0 ≤ z → z + 1 < height →
            (length (row_at (z + 1) coords) < length (row_at z coords))%nat))
  ∧ (∀ orientation,
       Triangle.fetch_grid_coords 3 3 orientation
       = Ok [mkCubeCoordinate 0 0; mkCubeCoordinate 1 0; mkCubeCoordinate 2 0;
             mkCubeCoordinate 0 1; mkCubeCoordinate 1 1;
             mkCubeCoordinate 0 2]).
Proof.
  split; [|done].
  intros width height orientation Hsize.
  rewrite triangle_fetch_closed. eexists; split; [done|].
  split; [done|].
  assert (Hrow : ∀ z, 0 ≤ z < height →
    row_at z (rows_of (range 0 height) (λ z, range 0 (height - z))
                (λ z x, mkCubeCoordinate x z))
    = (λ x, mkCubeCoordinate x z) <$> range 0 (height - z)).
  { intros z Hz. apply (row_at_axial_rows _ (λ z, range 0 (height - z))).
    - apply NoDup_range.
    - apply elem_of_range. lia. }
  split.
  - intros z Hz. split; [by apply Hrow|].
    rewrite Hrow, length_fmap, length_range by done. lia.
  - intros z Hz Hz'. apply Nat2Z.inj_lt.
    rewrite !Hrow, !length_fmap, !length_range by lia. lia.
Qed.

Lemma triangle_rows_emitted_witness :
  ∃ coords,
    Triangle.fetch_grid_coords 3 3 "FLAT_TOP" = Ok coords
    ∧ Z.of_nat (length (row_at 0 coords)) = 3
    ∧ Z.of_nat (length (row_at 1 coords)) = 2
    ∧ Z.of_nat (length (row_at 2 coords)) = 1.
Proof.
  destruct (proj1 triangle_rows_emitted 3 3 "FLAT_TOP" eq_refl)
    as (coords & Hfetch & _ & Hrows & _).
  exists coords. split; [exact Hfetch|].
  split_and!.
  - apply (Hrows 0); lia.
  - apply (Hrows 1); lia.
  - apply (Hrows 2); lia.
Defined.

(** C7, as stated: the row lengths do not follow the formula for every
    valid hexagon size.  At the valid size 2^53 + 3 row 0 has 2^52 + 3
    coordinates, while 2*hexRadius - abs(hexRadius - 0) + 1 is 2^52 + 2 for
    hexRadius = floor(gridSize/2); and for the hexRadius the code computes,
    2^52 + 2, 2*hexRadius + 1 is not gridSize. *)
Lemma hexagon_row_inexact_height :
  Hexagon.check_size (2 ^ 53 + 3) (2 ^ 53 + 3) = Ok ()
  ∧ (∃ coords,
       Hexagon.fetch_grid_coords (2 ^ 53 + 3) (2 ^ 53 + 3) "POINTY_TOP" = Ok coords
       ∧ Z.of_nat (length (row_at 0 coords)) = 2 ^ 52 + 3
       ∧ let hexRadius := (2 ^ 53 + 3) / 2 in
         Z.of_nat (length (row_at 0 coords))
         ≠ 2 * hexRadius - Z.abs (hexRadius - 0) + 1)
  ∧ (∃ x, Float.of_int (2 ^ 53 + 3) = Ok x
          ∧ Float.floor (x / 2)%Q = 2 ^ 52 + 2
          ∧ 2 * Float.floor (x / 2)%Q + 1 ≠ 2 ^ 53 + 3).
Proof.
  assert (Hy : 0 ≤ 0 < 2 * (2 ^ 52 + 2) - 1) by (by vm_compute).
  pose proof (row_at_hexagon_rows (2 * (2 ^ 52 + 2) - 1) (2 ^ 52 + 2)
                (Float.round (inject_Z (2 ^ 53 + 4) / 4)%Q) 0 0 Hy) as Hrow.
  rewrite (Z.sub_diag 0) in Hrow.
  assert (Hlen : Z.max 0 (2 * (2 ^ 52 + 2) - Z.abs (2 ^ 52 + 2 - 0) + 1) = 2 ^ 52 + 3)
    by (vm_compute; reflexivity).
  assert (Hrow0 : 2 ^ 52 + 3
                  ≠ 2 * ((2 ^ 53 + 3) `div` 2) - Z.abs ((2 ^ 53 + 3) `div` 2 - 0) + 1)
    by (by vm_compute).
  assert (Hhalf : (2 ^ 53 + 4) `div` 2 = 2 ^ 52 + 2) by (vm_compute; reflexivity).
  assert (Hmid : 2 * (2 ^ 52 + 2) + 1 ≠ 2 ^ 53 + 3) by (by vm_compute).
  destruct (hexagon_fetch_inexact_height (2 ^ 53 + 3)) as (Hsize & Hx & Hfetch).
  split; [exact Hsize|]. split.
  - eexists. split; [exact Hfetch|].
    rewrite Hrow, length_hexagon_row, Hlen. split; [reflexivity | exact Hrow0].
  - eexists. split; [exact Hx|]. rewrite floor_div_2, Hhalf.
    split; [reflexivity | exact Hmid].
Qed.

(** C7, amended: for every valid hexagon size below 2^53 and both
    orientations, row y of the hexagon has
    2*hexRadius - abs(hexRadius - y) + 1 coordinates; the middle row
    y = hexRadius has 2*hexRadius + 1 = gridSize of them, which no row
    exceeds; rows y and gridSize-1-y are equally long; the lengths grow by
    row up to the middle row and shrink after it. *)
Theorem hexagon_row_lengths (width height : Z) (orientation : string) :
  Hexagon.check_size width height = Ok () →
  height < 2 ^ 53 →
  ∃ coords,
    Hexagon.fetch_grid_coords width height orientation = Ok coords
    ∧ let gridSize := height in
      let hexRadius := gridSize / 2 in
      let z y := if decide (FLAT_TOP = orientation) then y - gridSize / 4 else y in
      let row_length y := Z.of_nat (length (row_at (z y) coords)) in
      (∀ y, 0 ≤ y < gridSize →
         row_length y = 2 * hexRadius - Z.abs (hexRadius - y) + 1)
      ∧ row_length hexRadius = 2 * hexRadius + 1
      ∧ 2 * hexRadius + 1 = gridSize
      ∧ (∀ y, 0 ≤ y < gridSize → row_length y ≤ row_length hexRadius)
      ∧ (∀ y, 0 ≤ y < gridSize → row_length y = row_length (gridSize - 1 - y))
      ∧ (∀ y, 0 ≤ y < hexRadius → row_length y < row_length (y + 1))
      ∧ (∀ y, hexRadius ≤ y → y + 1 < gridSize → row_length (y + 1) < row_length y).
Proof.
  intros Hsize%(check_size_ok_iff (H := standard_converter) Hexagonal) Hexact.
  destruct Hsize as (Hw & Hh & -> & [r Hr]).
  rewrite hexagon_fetch_exact by lia. eexists; split; [done|]. cbn zeta.
  assert (Hdiv : height `div` 2 = r) by (Z.div_mod_to_equations; lia).
  rewrite Hdiv.
  assert (Hrow : ∀ y, 0 ≤ y < height →
    Z.of_nat (length (row_at (if decide (FLAT_TOP = orientation)
                              then y - height `div` 4 else y)
                        (hexagon_rows height r (hexagon_start_x height orientation)
                           (hexagon_z_shift height orientation))))
    = 2 * r - Z.abs (r - y) + 1).
  { intros y Hy.
    replace (if decide (FLAT_TOP = orientation) then y - height `div` 4 else y)
      with (y - hexagon_z_shift height orientation)
      by (unfold hexagon_z_shift; case_decide; lia).
    rewrite row_at_hexagon_rows, length_hexagon_row by done. lia. }
  split_and!; intros; rewrite ?Hrow by lia; lia.
Qed.

Lemma hexagon_row_lengths_witness :
  ∃ coords,
    Hexagon.fetch_grid_coords 5 5 "POINTY_TOP" = Ok coords
    ∧ Z.of_nat (length (row_at 2 coords)) = 5.
Proof.
  destruct (hexagon_row_lengths 5 5 "POINTY_TOP" eq_refl eq_refl)
    as (coords & Hfetch & _ & Hmid & _).
  exists coords. split; [exact Hfetch | exact Hmid].
Defined.

(** ** Parameters without effect *)

(** C8: the width does not enter the triangle and hexagon enumerations, and
    the orientation does not enter the triangle and trapezoid ones: with
    everything else equal the returned sequences are identical. *)
Theorem fetch_grid_coords_unused_parameters :
  (∀ w1 w2 height orientation,
     Triangle.fetch_grid_coords w1 height orientation
     = Triangle.fetch_grid_coords w2 height orientation
     ∧ Hexagon.fetch_grid_coords w1 height orientation
       = Hexagon.fetch_grid_coords w2 height orientation)
  ∧ (∀ width height (o1 o2 : string),
       Triangle.fetch_grid_coords width height o1
       = Triangle.fetch_grid_coords width height o2
       ∧ Trapezoid.fetch_grid_coords width height o1
         = Trapezoid.fetch_grid_coords width height o2).
Proof. split; intros; split; reflexivity. Qed.

(** ** The two orientations of the hexagon *)

Lemma hexagon_of_double_translate (height : Z) (orientation : string) (x : Float.float) :
  FLAT_TOP ≠ orientation →
  hexagon_of_double height FLAT_TOP x
  = translate (Float.floor (x / 2)%Q - Float.round (x / 4)%Q) (- Float.floor (x / 4)%Q)
      <$> hexagon_of_double height orientation x.
Proof.
  intros Ho. unfold hexagon_of_double.
  destruct (decide (FLAT_TOP = FLAT_TOP)); [|done].
  destruct (decide (FLAT_TOP = orientation)); [done|].
  rewrite (hexagon_rows_translate _ _ _ _ (Float.round (x / 4)%Q) 0).
  reflexivity.
Qed.

(** C10: for every height, the flat-top hexagon is the hexagon of any
    other orientation with every coordinate moved by
    floor(h/2) - round(h/4) in gridX and by -floor(h/4) in gridZ, in the
    same order; when the height does not convert to a double both calls
    raise.  The quotients are those of the double of the height, which is
    the height itself below 2^53. *)
Theorem hexagon_orientations_translate (w1 w2 height : Z) (orientation : string) :
  orientation ≠ FLAT_TOP →
  (let h := Float.round_to_double height in
   Hexagon.fetch_grid_coords w1 height FLAT_TOP
   = translate_all (h / 2 - Float.round (inject_Z h / 4)%Q) (- (h / 4))
       <$> Hexagon.fetch_grid_coords w2 height orientation)
  ∧ (Z.abs height < 2 ^ 53 →
     ∃ coords,
       Hexagon.fetch_grid_coords w2 height orientation = Ok coords
       ∧ Hexagon.fetch_grid_coords w1 height FLAT_TOP
         = Ok (translate_all
                 (height / 2 - Float.round (inject_Z height / 4)%Q)
                 (- (height / 4)) coords)).
Proof.
  intros Ho.
  assert (Hgen :
    Hexagon.fetch_grid_coords w1 height FLAT_TOP
    = translate_all
        (Float.round_to_double height / 2
         - Float.round (inject_Z (Float.round_to_double height) / 4)%Q)
        (- (Float.round_to_double height / 4))
        <$> Hexagon.fetch_grid_coords w2 height orientation).
  { rewrite !hexagon_fetch_closed.
    destruct (Float.of_int height) as [x|e] eqn:Hx; [|done].
    apply of_int_value in Hx. cbn [fmap res_fmap]. f_equal.
    rewrite (hexagon_of_double_translate height orientation) by done.
    by rewrite Hx, floor_div_2, floor_div_4. }
  split; [exact Hgen|].
  intros Hexact. rewrite Hgen, round_to_double_exact by done.
  rewrite hexagon_fetch_exact by done. by eexists.
Qed.

Lemma hexagon_orientations_translate_witness :
  ∃ coords,
    Hexagon.fetch_grid_coords 5 5 "POINTY_TOP" = Ok coords
    ∧ Hexagon.fetch_grid_coords 5 5 FLAT_TOP = Ok (translate_all 1 (-1) coords).
Proof.
  apply (hexagon_orientations_translate 5 5 5 "POINTY_TOP");
    [discriminate | reflexivity].
Defined.

(** ** Sizes that [check_size] rejects *)

Lemma rectangle_fetch_cells `{!CoordinateConverter} (width height : Z) (orientation : string) :
  Rectangle.fetch_grid_coords width height orientation
  = Ok ((λ '(x, y), mkCubeCoordinate (offset_coords_to_cube_x x y orientation)
                                      (offset_coords_to_cube_z x y orientation))
          <$> rectangle_cells width height).
Proof.
  rewrite rectangle_fetch_closed. f_equal. unfold rectangle_cells, rows_of.
  rewrite fmap_bind_list. apply list_bind_ext; [|done].
  intros y. by rewrite <- list_fmap_compose.
Qed.

Lemma rows_of_no_rows {A : Type} (ys : list Z) (xs : Z → list Z) (f : Z → Z → A) :
  ys = [] ∨ (∀ y, xs y = []) → rows_of ys xs f = [].
Proof.
  unfold rows_of. intros [->|Hxs]; [done|].
  induction ys as [|y ys IH]; [done|]. by rewrite bind_cons, IH, Hxs.
Qed.

Lemma rectangle_cells_empty (width height : Z) :
  width ≤ 0 ∨ height ≤ 0 → rectangle_cells width height = [].
Proof.
  intros Hsize. apply rows_of_no_rows.
  destruct Hsize; [right; intros _ | left]; by apply range_empty.
Qed.

(** C9, as stated: the hexagon strategy does not return a list for every
    integer height; the conversion of the height to a double raises for
    the height -(2^1024). *)
Lemma hexagon_fetch_huge_height_raises :
  Hexagon.fetch_grid_coords 0 (- (2 ^ 1024)) "POINTY_TOP" = Raise OverflowError
  ∧ ¬ ∃ coords, Hexagon.fetch_grid_coords 0 (- (2 ^ 1024)) "POINTY_TOP" = Ok coords.
Proof.
  assert (Hraise : Hexagon.fetch_grid_coords 0 (- (2 ^ 1024)) "POINTY_TOP"
                   = Raise OverflowError).
  { apply hexagon_fetch_overflow. by vm_compute. }
  split; [exact Hraise|]. rewrite Hraise. by intros [coords [=]].
Qed.

(** C9, amended: for every integer width and height and every orientation,
    the triangle and trapezoid strategies return a list without raising,
    and so does the hexagon strategy when the magnitude of the height is
    below 2^1024 - 2^970, the integers that convert to a double (for the
    others it raises [OverflowError]); that list is empty whenever
    height <= 0.  The rectangle strategy returns the empty list whenever
    width <= 0 or height <= 0, whatever the converter, which it calls at no
    cell. *)
Theorem fetch_grid_coords_total (width height : Z) (orientation : string) :
  (∃ coords, Triangle.fetch_grid_coords width height orientation = Ok coords
             ∧ (height ≤ 0 → coords = []))
  ∧ (∃ coords, Trapezoid.fetch_grid_coords width height orientation = Ok coords
               ∧ (height ≤ 0 → coords = []))
  ∧ (Z.abs height < 2 ^ 1024 - 2 ^ 970 →
     ∃ coords, Hexagon.fetch_grid_coords width height orientation = Ok coords
               ∧ (height ≤ 0 → coords = []))
  ∧ (2 ^ 1024 - 2 ^ 970 ≤ Z.abs height →
     Hexagon.fetch_grid_coords width height orientation = Raise OverflowError)
  ∧ (width ≤ 0 ∨ height ≤ 0 →
     rectangle_cells width height = []
     ∧ ∀ converter : CoordinateConverter,
         Rectangle.fetch_grid_coords width height orientation = Ok []).
Proof.
  split_and!.
  - rewrite triangle_fetch_closed. eexists; split; [done|].
    intros Hh. apply rows_of_no_rows. left. by apply range_empty.
  - rewrite trapezoid_fetch_closed. eexists; split; [done|].
    intros Hh. apply rows_of_no_rows. left. by apply range_empty.
  - intros [x Hx]%of_int_ok_iff. rewrite hexagon_fetch_closed, Hx.
    eexists; split; [done|].
    intros Hh. unfold hexagon_of_double, hexagon_rows.
    by rewrite range_empty.
  - apply hexagon_fetch_overflow.
  - intros Hsize. split; [by apply rectangle_cells_empty|].
    intros converter. by rewrite rectangle_fetch_cells, rectangle_cells_empty.
Qed.

Lemma fetch_grid_coords_total_witness :
  (∃ coords, Hexagon.fetch_grid_coords 4 (-3) "FLAT_TOP" = Ok coords
             ∧ (-3 ≤ 0 → coords = []))
  ∧ Rectangle.fetch_grid_coords (H := standard_converter) 0 3 "FLAT_TOP" = Ok [].
Proof.
  split.
  - apply (fetch_grid_coords_total 4 (-3) "FLAT_TOP"). by vm_compute.
  - apply (fetch_grid_coords_total 0 3 "FLAT_TOP"). left. lia.
Defined.

(** ** Builds that fail validation *)

(** A build that passes validation does populate: the 2 by 2 triangle
    enumerates its coordinates and, for each of the three, constructs the
    hexagon, inserts it in the storage and appends it to the list. *)
Example build_triangle_calls :
  let c x z := mkCubeCoordinate x z in
  (Builder.build_triangle "FLAT_TOP" 1%Q 2 2 []).2
  = [Builder.NewGridData; Builder.NewStorage; Builder.NewGrid;
     Builder.FetchGridCoords "TRIANGULAR";
     Builder.NewHexagon (c 0 0); Builder.AddCoordWithData (c 0 0);
     Builder.AppendHexagon (c 0 0);
     Builder.NewHexagon (c 1 0); Builder.AddCoordWithData (c 1 0);
     Builder.AppendHexagon (c 1 0);
     Builder.NewHexagon (c 0 1); Builder.AddCoordWithData (c 0 1);
     Builder.AppendHexagon (c 0 1);
     Builder.NewCalculator].
Proof. by vm_compute. Qed.

(** C5: for each of the four build operations, when the strategy's
    [check_size] raises for the given width and height the build raises
    that same exception, and what it has done by then is to construct the
    grid data: no coordinate is enumerated, no hexagon is constructed,
    nothing is inserted in a storage and nothing is appended to a hexagon
    list. *)
Theorem build_propagates_check_size_error `{!CoordinateConverter}
    (s : shape) (orientation : string) (radius : Float.float) (width height : Z)
    (e : exn) (log : list Builder.call) :
  check_size (strategy_of s) width height = Raise e →
  ∃ calls,
    build_shape s orientation radius width height log = (Raise e, log ++ calls)
    ∧ calls = [Builder.NewGridData]
    ∧ Forall (λ c, Builder.populates c = false) calls.
Proof.
  intros Hsize. exists [Builder.NewGridData]. split; [|split; [done|]].
  - destruct s; cbn in Hsize |- *;
      unfold Builder.build_rectangle, Builder.build_triangle,
        Builder.build_trapezoid, Builder.build_hexagon;
      unfold mbind, Builder.M_bind, Builder.build_grid_data, Builder.called,
        Builder.check_size, Builder.lift; cbn;
      by rewrite Hsize.
  - by repeat constructor.
Qed.

Lemma build_propagates_check_size_error_witness :
  ∃ calls,
    Builder.build_rectangle (H := standard_converter) "FLAT_TOP" 1%Q 0 3 []
    = (Raise (GridLayoutException
         "Attempted to build a grid with invalid size 0, 3. Rectangle dimensions must be larger than zero."),
       [] ++ calls)
    ∧ calls = [Builder.NewGridData]
    ∧ Forall (λ c, Builder.populates c = false) calls.
Proof.
  apply (build_propagates_check_size_error (H := standard_converter)
           Rectangular "FLAT_TOP" 1%Q 0 3).
  reflexivity.
Defined.

(** * Further properties of the layouts and of the builder *)

(** ** Which coordinates a layout holds *)

Lemma elem_of_rows_of {A : Type} (ys : list Z) (xs : Z → list Z) (f : Z → Z → A) (a : A) :
  a ∈ rows_of ys xs f ↔ ∃ y x, y ∈ ys ∧ x ∈ xs y ∧ a = f y x.
Proof.
  unfold rows_of. rewrite list_elem_of_bind. split.
  - intros (y & (x & -> & Hx)%list_elem_of_fmap & Hy). eauto.
  - intros (y & x & Hy & Hx & ->). exists y. split; [|done].
    apply list_elem_of_fmap. eauto.
Qed.

Lemma elem_of_hexagon_rows (grid_size hex_radius start_x z_shift : Z) (c : CubeCoordinate) :
  c ∈ hexagon_rows grid_size hex_radius start_x z_shift
  ↔ ∃ y, 0 ≤ y < grid_size
         ∧ gridZ c = y - z_shift
         ∧ Z.max (start_x - y) (start_x - hex_radius) ≤ gridX c
         ∧ gridX c ≤ Z.max (start_x - y) (start_x - hex_radius)
                     + 2 * hex_radius - Z.abs (hex_radius - y).
Proof.
  unfold hexagon_rows, hexagon_row. rewrite list_elem_of_bind. split.
  - intros (y & (x & -> & Hx%elem_of_range)%list_elem_of_fmap & Hy%elem_of_range).
    exists y. cbn. lia.
  - intros (y & Hy & Hz & Hlo & Hhi). exists y. split; [|apply elem_of_range; lia].
    apply list_elem_of_fmap. exists (gridX c). split.
    + destruct c as [x z]; cbn in *. by subst z.
    + apply elem_of_range. lia.
Qed.

(** X1: for every valid hexagon size (whose double is exact) and every
    orientation, the hexagon layout holds exactly the hexagons within cube
    distance hexRadius of its middle hexagon: a regular hexagon, not a
    parallelogram. *)
Theorem hexagon_is_cube_ball (width height : Z) (orientation : string) :
  Hexagon.check_size width height = Ok () →
  height < 2 ^ 53 →
  ∃ coords,
    Hexagon.fetch_grid_coords width height orientation = Ok coords
    ∧ ∀ c, c ∈ coords
           ↔ cube_distance c (hexagon_center height orientation) ≤ height / 2.
Proof.
  intros Hsize%(check_size_ok_iff (H := standard_converter) Hexagonal) Hexact.
  destruct Hsize as (Hw & Hh & -> & [r Hr]).
  rewrite hexagon_fetch_exact by lia. eexists; split; [done|].
  assert (Hdiv : height `div` 2 = r) by (Z.div_mod_to_equations; lia).
  intros [x z]. rewrite elem_of_hexagon_rows.
  unfold cube_distance, hexagon_center. cbn [gridX gridZ]. rewrite Hdiv.
  generalize (hexagon_start_x height orientation) as sx.
  generalize (hexagon_z_shift height orientation) as zs. intros zs sx.
  split.
  - intros (y & Hy & Hz & Hlo & Hhi). lia.
  - intros Hdist. exists (z + zs). lia.
Qed.

Lemma hexagon_is_cube_ball_witness :
  ∃ coords,
    Hexagon.fetch_grid_coords 5 5 "POINTY_TOP" = Ok coords
    ∧ ∀ c, c ∈ coords ↔ cube_distance c (mkCubeCoordinate 1 2) ≤ 2.
Proof.
  apply (hexagon_is_cube_ball 5 5 "POINTY_TOP"); reflexivity.
Defined.

(** X2: for every integer width and height and every orientation, the
    triangle layout holds exactly the coordinates with gridX >= 0,
    gridZ >= 0 and gridX + gridZ < height, and the trapezoid layout exactly
    those with 0 <= gridX < width and 0 <= gridZ < height. *)
Theorem triangle_trapezoid_membership (width height : Z) (orientation : string) :
  (∃ coords,
     Triangle.fetch_grid_coords width height orientation = Ok coords
     ∧ ∀ c, c ∈ coords ↔ 0 ≤ gridX c ∧ 0 ≤ gridZ c ∧ gridX c + gridZ c < height)
  ∧ (∃ coords,
       Trapezoid.fetch_grid_coords width height orientation = Ok coords
       ∧ ∀ c, c ∈ coords ↔ 0 ≤ gridX c < width ∧ 0 ≤ gridZ c < height).
Proof.
  split.
  - rewrite triangle_fetch_closed. eexists; split; [done|].
    intros [x z]. rewrite elem_of_rows_of. cbn. split.
    + intros (z' & x' & Hz%elem_of_range & Hx%elem_of_range & [= -> ->]). lia.
    + intros Hc. exists z, x. rewrite !elem_of_range. split_and!; [lia..|done].
  - rewrite trapezoid_fetch_closed. eexists; split; [done|].
    intros [x z]. rewrite elem_of_rows_of. cbn. split.
    + intros (z' & x' & Hz%elem_of_range & Hx%elem_of_range & [= -> ->]). lia.
    + intros Hc. exists z, x. rewrite !elem_of_range. split_and!; [lia..|done].
Qed.

(** ** The order of a layout *)

Lemma StronglySorted_seqZ (a n : Z) : StronglySorted Z.lt (seqZ a n).
Proof.
  destruct (Z.le_gt_cases n 0) as [Hn|Hn]; [rewrite seqZ_nil by done; constructor|].
  rewrite <- (Z2Nat.id n) by lia. generalize (Z.to_nat n) as k. clear.
  intros k. revert a. induction k as [|k IH]; intros a.
  - rewrite seqZ_nil by lia. constructor.
  - rewrite seqZ_cons by lia. apply StronglySorted_cons. split.
    + apply Forall_forall. intros x Hx%elem_of_seqZ. lia.
    + replace (Z.pred (Z.of_nat (S k))) with (Z.of_nat k) by lia. apply IH.
Qed.

Lemma StronglySorted_row (xs : list Z) (z : Z) :
  StronglySorted Z.lt xs →
  StronglySorted row_major_lt ((λ x, mkCubeCoordinate x z) <$> xs).
Proof.
  induction 1 as [|x xs Hxs IH Hx]; [constructor|].
  rewrite fmap_cons. apply StronglySorted_cons. split; [|done].
  apply Forall_fmap. eapply Forall_impl; [exact Hx|].
  intros x' Hlt. right. cbn. done.
Qed.

Lemma StronglySorted_rows (ys : list Z) (xs : Z → list Z) (z_of : Z → Z) :
  StronglySorted Z.lt ys →
  (∀ y, StronglySorted Z.lt (xs y)) →
  (∀ y y', y < y' → z_of y < z_of y') →
  StronglySorted row_major_lt (ys ≫= λ y, (λ x, mkCubeCoordinate x (z_of y)) <$> xs y).
Proof.
  intros Hys Hxs Hz. induction Hys as [|y ys Hys IH Hy]; [constructor|].
  rewrite bind_cons. apply StronglySorted_app. split_and!; [|by apply StronglySorted_row|done].
  intros c d (x & -> & _)%list_elem_of_fmap
    (y' & (x' & -> & _)%list_elem_of_fmap & Hy')%list_elem_of_bind.
  left. cbn. apply Hz. rewrite Forall_forall in Hy. by apply Hy.
Qed.

(** X3: the triangle and trapezoid layouts, for every integer size, and
    the hexagon layout, for every height that converts to a double, return
    their coordinates in strictly increasing row-major order: by gridZ, and
    by gridX within a row. *)
Theorem layouts_row_major (width height : Z) (orientation : string) :
  (∃ coords,
     Triangle.fetch_grid_coords width height orientation = Ok coords
     ∧ StronglySorted row_major_lt coords)
  ∧ (∃ coords,
       Trapezoid.fetch_grid_coords width height orientation = Ok coords
       ∧ StronglySorted row_major_lt coords)
  ∧ (Z.abs height < 2 ^ 1024 - 2 ^ 970 →
     ∃ coords,
       Hexagon.fetch_grid_coords width height orientation = Ok coords
       ∧ StronglySorted row_major_lt coords).
Proof.
  split_and!.
  - rewrite triangle_fetch_closed. eexists; split; [done|].
    apply (StronglySorted_rows _ (λ z, range 0 (height - z)) id);
      [apply StronglySorted_seqZ | intros; apply StronglySorted_seqZ | done].
  - rewrite trapezoid_fetch_closed. eexists; split; [done|].
    apply (StronglySorted_rows _ (λ _, range 0 width) id);
      [apply StronglySorted_seqZ | intros; apply StronglySorted_seqZ | done].
  - intros [x Hx]%of_int_ok_iff. rewrite hexagon_fetch_closed, Hx.
    eexists; split; [done|]. unfold hexagon_of_double, hexagon_rows, hexagon_row.
    apply (StronglySorted_rows _ _ (λ y, y - _));
      [apply StronglySorted_seqZ | intros; apply StronglySorted_seqZ | intros; lia].
Qed.

Lemma layouts_row_major_witness :
  ∃ coords,
    Hexagon.fetch_grid_coords 5 5 "FLAT_TOP" = Ok coords
    ∧ StronglySorted row_major_lt coords.
Proof.
  apply (layouts_row_major 5 5 "FLAT_TOP"). by vm_compute.
Defined.

(** ** How the layouts relate *)

Lemma filter_keep_all {A : Type} (P : A → Prop) `{!∀ x, Decision (P x)} (l : list A) :
  (∀ x, x ∈ l → P x) → filter P l = l.
Proof.
  induction l as [|x l IH]; intros Hl; [done|].
  rewrite filter_cons_True by (apply Hl; left). f_equal.
  apply IH. intros; apply Hl; by right.
Qed.

Lemma filter_drop_all {A : Type} (P : A → Prop) `{!∀ x, Decision (P x)} (l : list A) :
  (∀ x, x ∈ l → ¬ P x) → filter P l = [].
Proof.
  induction l as [|x l IH]; intros Hl; [done|].
  rewrite filter_cons_False by (apply Hl; left).
  apply IH. intros; apply Hl; by right.
Qed.

Lemma filter_row_below (bound z width : Z) :
  0 ≤ z → bound - z ≤ width →
  filter (λ c, gridX c + gridZ c < bound) ((λ x, mkCubeCoordinate x z) <$> range 0 width)
  = (λ x, mkCubeCoordinate x z) <$> range 0 (bound - z).
Proof.
  intros Hz Hw. unfold range. rewrite !Z.sub_0_r.
  destruct (Z.le_gt_cases (bound - z) 0) as [Hneg|Hpos].
  - rewrite (seqZ_nil _ (bound - z)) by done.
    apply filter_drop_all.
    intros c (x & -> & Hx%elem_of_seqZ)%list_elem_of_fmap. cbn. lia.
  - replace width with ((bound - z) + (width - (bound - z))) at 1 by lia.
    rewrite seqZ_app, fmap_app, filter_app by lia.
    rewrite filter_keep_all.
    2:{ intros c (x & -> & Hx%elem_of_seqZ)%list_elem_of_fmap. cbn. lia. }
    rewrite filter_drop_all; [by rewrite app_nil_r|].
    intros c (x & -> & Hx%elem_of_seqZ)%list_elem_of_fmap. cbn. lia.
Qed.

(** X4: for every height, the triangle layout is the trapezoid layout of
    the same height and of width height, with the coordinates of
    gridX + gridZ < height kept, in the trapezoid's order. *)
Theorem triangle_is_filtered_trapezoid (w1 height : Z) (o1 o2 : string) :
  ∃ trapezoid,
    Trapezoid.fetch_grid_coords height height o2 = Ok trapezoid
    ∧ Triangle.fetch_grid_coords w1 height o1
      = Ok (filter (λ c, gridX c + gridZ c < height) trapezoid).
Proof.
  rewrite trapezoid_fetch_closed, triangle_fetch_closed. eexists; split; [done|].
  f_equal. unfold rows_of.
  assert (Hrows : ∀ zs : list Z, (∀ z, z ∈ zs → 0 ≤ z) →
    zs ≫= (λ z, (λ x, mkCubeCoordinate x z) <$> range 0 (height - z))
    = filter (λ c, gridX c + gridZ c < height)
        (zs ≫= λ z, (λ x, mkCubeCoordinate x z) <$> range 0 height)).
  { induction zs as [|z zs IH]; intros Hzs; [done|].
    rewrite !bind_cons, filter_app, <- IH by (intros; apply Hzs; by right).
    assert (0 ≤ z) by (apply Hzs; left).
    by rewrite filter_row_below by lia. }
  apply Hrows. intros z Hz%elem_of_range. lia.
Qed.

(** X5: for every converter, size and orientation, the rectangle layout
    is the trapezoid layout of the same size with every coordinate (x, z)
    replaced by the cube coordinate the converter gives for the offset cell
    (x, z), in the same order. *)
Theorem rectangle_is_converted_trapezoid `{!CoordinateConverter}
    (width height : Z) (o1 o2 : string) :
  ∃ trapezoid,
    Trapezoid.fetch_grid_coords width height o2 = Ok trapezoid
    ∧ Rectangle.fetch_grid_coords width height o1
      = Ok ((λ c, mkCubeCoordinate
                    (offset_coords_to_cube_x (gridX c) (gridZ c) o1)
                    (offset_coords_to_cube_z (gridX c) (gridZ c) o1))
              <$> trapezoid).
Proof.
  rewrite trapezoid_fetch_closed, rectangle_fetch_closed. eexists; split; [done|].
  f_equal. unfold rows_of. rewrite fmap_bind_list.
  apply list_bind_ext; [|done]. intros y. by rewrite <- list_fmap_compose.
Qed.

(** ** Where a cell sits in a layout *)

Lemma lookup_rectangle_rows {A : Type} (f : Z → Z → A) (width : Z) (n : nat) :
  ∀ a y x,
    0 ≤ x < width → a ≤ y < a + Z.of_nat n →
    rows_of (seqZ a (Z.of_nat n)) (λ _, range 0 width) f
      !! Z.to_nat ((y - a) * width + x)
    = Some (f y x).
Proof.
  unfold rows_of. induction n as [|n IH]; intros a y x Hx Hy; [lia|].
  rewrite seqZ_cons by lia. rewrite bind_cons.
  replace (Z.pred (Z.of_nat (S n))) with (Z.of_nat n) by lia.
  assert (Hlen : length (f a <$> range 0 width) = Z.to_nat width).
  { rewrite length_fmap. unfold range. rewrite length_seqZ. f_equal. lia. }
  destruct (decide (y = a)) as [->|Hne].
  - rewrite lookup_app_l by (rewrite Hlen; lia).
    rewrite list_lookup_fmap. unfold range.
    rewrite lookup_seqZ_lt by lia. cbn. do 2 f_equal. lia.
  - assert (0 ≤ (y - Z.succ a) * width) by nia.
    replace ((y - a) * width + x) with (width + ((y - Z.succ a) * width + x)) by ring.
    rewrite Z2Nat.inj_add by lia.
    rewrite lookup_app_r by (rewrite Hlen; lia).
    rewrite Hlen.
    replace (Z.to_nat width + Z.to_nat ((y - Z.succ a) * width + x) - Z.to_nat width)%nat
      with (Z.to_nat ((y - Z.succ a) * width + x)) by lia.
    apply IH; lia.
Qed.

(** X6: in the trapezoid and in the rectangle layout the cell of column x
    and row y, 0 <= x < width and 0 <= y < height, is the element of index
    y*width + x: the coordinate (x, y) itself in the trapezoid, its
    conversion in the rectangle. *)
Theorem cell_index `{!CoordinateConverter}
    (width height x y : Z) (orientation : string) :
  0 ≤ x < width → 0 ≤ y < height →
  (∃ coords,
     Trapezoid.fetch_grid_coords width height orientation = Ok coords
     ∧ coords !! Z.to_nat (y * width + x) = Some (mkCubeCoordinate x y))
  ∧ (∃ coords,
       Rectangle.fetch_grid_coords width height orientation = Ok coords
       ∧ coords !! Z.to_nat (y * width + x)
         = Some (mkCubeCoordinate (offset_coords_to_cube_x x y orientation)
                                  (offset_coords_to_cube_z x y orientation))).
Proof.
  intros Hx Hy.
  assert (Hh : height - 0 = Z.of_nat (Z.to_nat height)) by lia.
  split.
  - rewrite trapezoid_fetch_closed. eexists; split; [done|].
    unfold range at 1. rewrite Hh.
    pose proof (lookup_rectangle_rows (λ z x, mkCubeCoordinate x z) width
                  (Z.to_nat height) 0 y x Hx ltac:(lia)) as Hlook.
    by rewrite Z.sub_0_r in Hlook.
  - rewrite rectangle_fetch_closed. eexists; split; [done|].
    unfold range at 1. rewrite Hh.
    pose proof (lookup_rectangle_rows
                  (λ y x, mkCubeCoordinate (offset_coords_to_cube_x x y orientation)
                                           (offset_coords_to_cube_z x y orientation))
                  width (Z.to_nat height) 0 y x Hx ltac:(lia)) as Hlook.
    by rewrite Z.sub_0_r in Hlook.
Qed.

Lemma cell_index_witness :
  ∃ coords,
    Rectangle.fetch_grid_coords (H := standard_converter) 3 2 "POINTY_TOP" = Ok coords
    ∧ coords !! 5%nat = Some (mkCubeCoordinate 2 1).
Proof.
  apply (cell_index (H := standard_converter) 3 2 2 1 "POINTY_TOP"); lia.
Defined.

(** ** Populating a grid *)

Lemma store_all_lookup (grid_data : Builder.GridData) (coords : list CubeCoordinate)
    (store : gmap CubeCoordinate Builder.HexagonImpl) (c : CubeCoordinate) :
  store_all grid_data coords store !! c
  = if decide (c ∈ coords) then Some (Builder.mkHexagonImpl grid_data c) else store !! c.
Proof.
  unfold store_all. revert store. induction coords as [|d coords IH]; intros store.
  - cbn. case_decide as Hin; [by apply elem_of_nil in Hin | done].
  - cbn [foldl]. rewrite IH.
    destruct (decide (c ∈ coords)) as [Hin|Hnot];
      destruct (decide (c ∈ d :: coords)) as [Hin'|Hnot'];
      rewrite elem_of_cons in *.
    + done.
    + destruct Hnot'. by right.
    + destruct Hin' as [->|Hin']; [apply lookup_insert_eq | done].
    + apply lookup_insert_ne. intros ->. apply Hnot'. by left.
Qed.

Lemma store_all_dom (grid_data : Builder.GridData) (coords : list CubeCoordinate)
    (store : gmap CubeCoordinate Builder.HexagonImpl) :
  dom (store_all grid_data coords store) = dom store ∪ list_to_set coords.
Proof.
  unfold store_all. revert store. induction coords as [|d coords IH]; intros store.
  - cbn [foldl list_to_set]. by rewrite (right_id_L ∅ (∪)).
  - cbn [foldl list_to_set]. rewrite IH, dom_insert_L.
    by rewrite (comm_L (∪) {[d]} (dom store)), <- (assoc_L (∪)).
Qed.

Lemma populate_storage_run (coords : list CubeCoordinate) :
  ∀ (grid : Builder.HexagonGridImpl) (grid_data : Builder.GridData)
    (log : list Builder.call),
    Builder.populate_storage grid grid_data coords log
    = (Ok (Builder.mkHexagonGridImpl (Builder.grid_data grid)
             (store_all grid_data coords (Builder.storage grid))
             (Builder.hexagons grid ++ (Builder.mkHexagonImpl grid_data <$> coords))),
       log ++ populate_calls coords).
Proof.
  unfold Builder.populate_storage, populate_calls, store_all.
  induction coords as [|c coords IH]; intros grid grid_data log.
  - cbn. rewrite !app_nil_r. by destruct grid.
  - cbn [Builder.for_M]. unfold mbind at 1, Builder.M_bind at 1.
    unfold mbind at 1, Builder.M_bind at 1. unfold Builder.called at 1.
    unfold mbind at 1, Builder.M_bind at 1.
    unfold Builder.add_coord_with_data at 1, Builder.called at 1 2.
    rewrite IH. cbn. f_equal; [|by rewrite <- !app_assoc].
    do 2 f_equal. by rewrite <- app_assoc.
Qed.

(** X7: [populate_storage] never raises; it keeps the grid data and the
    hexagons the grid already has, appends one hexagon per coordinate in
    the order of the list, each carrying the given grid data, leaves under
    every listed coordinate the hexagon of that coordinate in the storage
    and every other key of the storage as it was; per coordinate it
    constructs, inserts and appends, in that order. *)
Theorem populate_storage_result (grid : Builder.HexagonGridImpl)
    (grid_data : Builder.GridData) (coords : list CubeCoordinate)
    (log : list Builder.call) :
  ∃ grid',
    Builder.populate_storage grid grid_data coords log
    = (Ok grid', log ++ populate_calls coords)
    ∧ Builder.grid_data grid' = Builder.grid_data grid
    ∧ Builder.hexagons grid'
      = Builder.hexagons grid ++ (Builder.mkHexagonImpl grid_data <$> coords)
    ∧ (∀ c, c ∈ coords →
         Builder.storage grid' !! c = Some (Builder.mkHexagonImpl grid_data c))
    ∧ (∀ c, c ∉ coords → Builder.storage grid' !! c = Builder.storage grid !! c).
Proof.
  rewrite populate_storage_run. eexists; split; [done|]. cbn.
  split_and!; [done|done|..]; intros c Hc; rewrite store_all_lookup.
  - by rewrite decide_True.
  - by rewrite decide_False.
Qed.

(** ** What a build returns *)

Lemma build_shape_run `{!CoordinateConverter} (s : shape) (orientation : string)
    (radius : Float.float) (width height : Z) (log : list Builder.call) :
  build_shape s orientation radius width height log
  = let grid_data := Builder.mkGridData orientation radius width height in
    let fetched := Builder.FetchGridCoords (get_name (strategy_of s)) in
    match check_size (strategy_of s) width height with
    | Raise e => (Raise e, log ++ [Builder.NewGridData])
    | Ok _ =>
        match fetch_grid_coords (strategy_of s) width height orientation with
        | Raise e =>
            (Raise e,
             log ++ [Builder.NewGridData; Builder.NewStorage; Builder.NewGrid; fetched])
        | Ok coords =>
            let grid :=
              Builder.mkHexagonGridImpl grid_data (store_all grid_data coords ∅)
                (Builder.mkHexagonImpl grid_data <$> coords) in
            (Ok (Builder.mkGridControl grid (Builder.mkHexagonGridCalculator grid)
                   grid_data),
             log ++ [Builder.NewGridData; Builder.NewStorage; Builder.NewGrid; fetched]
                 ++ populate_calls coords ++ [Builder.NewCalculator])
        end
    end.
Proof.
  destruct s; cbn [build_shape strategy_of];
    unfold Builder.build_rectangle, Builder.build_triangle,
      Builder.build_trapezoid, Builder.build_hexagon;
    cbv beta iota zeta delta [mbind Builder.M_bind Builder.build_grid_data
      Builder.check_size Builder.new_grid Builder.strategy_fetch_grid_coords
      Builder.called Builder.lift mret Builder.M_ret];
    cbn [check_size fetch_grid_coords get_name Rectangle.strategy
         Triangle.strategy Trapezoid.strategy Hexagon.strategy];
    match goal with |- context [match ?c with Ok _ => _ | Raise _ => _ end] =>
      destruct c as [[]|e] end; try done;
    match goal with |- context [match ?f with Ok _ => _ | Raise _ => _ end] =>
      destruct f as [coords|e] end;
    rewrite <- ?app_assoc; try done;
    rewrite populate_storage_run; cbn; by rewrite <- ?app_assoc.
Qed.

(** X8: for each of the four build operations, when [check_size] accepts
    the size and [fetch_grid_coords] returns a list, the build returns a
    grid control whose grid data is (orientation, radius, width, height),
    whose calculator is built on the grid it returns, whose hexagon list
    has one hexagon per coordinate in the order of the list, each with that
    grid data, and whose storage holds under each listed coordinate the
    hexagon of that coordinate and nothing under any other key.  It first
    constructs the grid data, the storage and the grid, then enumerates,
    populates, and constructs the calculator last. *)
Theorem build_returns_populated_grid `{!CoordinateConverter}
    (s : shape) (orientation : string) (radius : Float.float) (width height : Z)
    (coords : list CubeCoordinate) (log : list Builder.call) :
  check_size (strategy_of s) width height = Ok () →
  fetch_grid_coords (strategy_of s) width height orientation = Ok coords →
  let grid_data := Builder.mkGridData orientation radius width height in
  ∃ control,
    build_shape s orientation radius width height log
    = (Ok control,
       log ++ [Builder.NewGridData; Builder.NewStorage; Builder.NewGrid;
               Builder.FetchGridCoords (get_name (strategy_of s))]
           ++ populate_calls coords ++ [Builder.NewCalculator])
    ∧ Builder.gc_grid_data control = grid_data
    ∧ Builder.grid_data (Builder.gc_hex_grid control) = grid_data
    ∧ Builder.calc_grid (Builder.gc_calculator control) = Builder.gc_hex_grid control
    ∧ Builder.hexagons (Builder.gc_hex_grid control)
      = Builder.mkHexagonImpl grid_data <$> coords
    ∧ ∀ c, Builder.storage (Builder.gc_hex_grid control) !! c
           = if decide (c ∈ coords)
             then Some (Builder.mkHexagonImpl grid_data c) else None.
Proof.
  intros Hsize Hfetch. rewrite build_shape_run, Hsize, Hfetch. cbn zeta.
  eexists; split; [done|]. cbn. split_and!; try done.
  intros c. by rewrite store_all_lookup, lookup_empty.
Qed.

Lemma build_returns_populated_grid_witness :
  ∃ control,
    (Builder.build_triangle "FLAT_TOP" 1%Q 2 2 []).1 = Ok control
    ∧ Builder.hexagons (Builder.gc_hex_grid control)
      = Builder.mkHexagonImpl (Builder.mkGridData "FLAT_TOP" 1%Q 2 2)
          <$> [mkCubeCoordinate 0 0; mkCubeCoordinate 1 0; mkCubeCoordinate 0 1].
Proof.
  destruct (build_returns_populated_grid (H := standard_converter) Triangular
              "FLAT_TOP" 1%Q 2 2
              [mkCubeCoordinate 0 0; mkCubeCoordinate 1 0; mkCubeCoordinate 0 1] [])
    as (control & Hbuild & _ & _ & _ & Hhex & _); [reflexivity | reflexivity |].
  exists control. split; [|exact Hhex]. cbn [build_shape] in Hbuild. by rewrite Hbuild.
Defined.

(** X9: for each of the four build operations, when [check_size] accepts
    the size but [fetch_grid_coords] raises, the build raises that
    exception after it has constructed the grid data, an empty storage and
    the grid: no hexagon is constructed, inserted or appended and no
    calculator is constructed.  The hexagon build does so with
    [OverflowError] for an odd size of 2^1024 - 2^970 or more. *)
Theorem build_propagates_fetch_error `{!CoordinateConverter}
    (s : shape) (orientation : string) (radius : Float.float) (width height : Z)
    (e : exn) (log : list Builder.call) :
  check_size (strategy_of s) width height = Ok () →
  fetch_grid_coords (strategy_of s) width height orientation = Raise e →
  build_shape s orientation radius width height log
  = (Raise e,
     log ++ [Builder.NewGridData; Builder.NewStorage; Builder.NewGrid;
             Builder.FetchGridCoords (get_name (strategy_of s))]).
Proof.
  intros Hsize Hfetch. by rewrite build_shape_run, Hsize, Hfetch.
Qed.

Lemma build_propagates_fetch_error_witness :
  Builder.build_hexagon "FLAT_TOP" 1%Q (2 ^ 1024 + 1) (2 ^ 1024 + 1) []
  = (Raise OverflowError,
     [] ++ [Builder.NewGridData; Builder.NewStorage; Builder.NewGrid;
            Builder.FetchGridCoords "HEXAGONAL"]).
Proof.
  apply (build_propagates_fetch_error (H := standard_converter) Hexagonal
           "FLAT_TOP" 1%Q (2 ^ 1024 + 1) (2 ^ 1024 + 1)).
  - by vm_compute.
  - apply hexagon_fetch_overflow. by vm_compute.
Defined.

Lemma store_all_size (grid_data : Builder.GridData) (coords : list CubeCoordinate) :
  NoDup coords → size (store_all grid_data coords ∅) = length coords.
Proof.
  intros Hnd.
  rewrite <- (size_dom (D := gset CubeCoordinate) (store_all grid_data coords ∅)).
  rewrite store_all_dom, dom_empty_L, (left_id_L ∅ (∪)).
  by apply size_list_to_set.
Qed.

Lemma fetch_accepted_size `{!CoordinateConverter}
    (s : shape) (width height : Z) (orientation : string) :
  check_size (strategy_of s) width height = Ok () →
  (s = Rectangular → converter_injective_on width height orientation) →
  (s = Hexagonal → height < 2 ^ 53) →
  ∃ coords,
    fetch_grid_coords (strategy_of s) width height orientation = Ok coords
    ∧ NoDup coords
    ∧ Z.of_nat (length coords) = expected_count s width height.
Proof.
  intros Hsize%check_size_ok_iff Hconv Hexact. destruct s; cbn in *.
  - rewrite rectangle_fetch_closed. eexists; split_and!; [done| |].
    + apply NoDup_rows_of; [apply NoDup_range | intros; apply NoDup_range |].
      intros y x y' x' Hy%elem_of_range Hx%elem_of_range Hy'%elem_of_range
        Hx'%elem_of_range [= Hcx Hcz].
      destruct (Hconv eq_refl x y x' y'); auto.
    + apply length_rectangle_rows; lia.
  - rewrite triangle_fetch_closed. eexists; split_and!; [done| |].
    + apply NoDup_axial_rows; [apply NoDup_range | intros; apply NoDup_range].
    + apply length_triangle_rows; lia.
  - rewrite trapezoid_fetch_closed. eexists; split_and!; [done| |].
    + apply NoDup_axial_rows; [apply NoDup_range | intros; apply NoDup_range].
    + apply length_rectangle_rows; lia.
  - destruct Hsize as (Hw & Hh & -> & [r Hr]).
    rewrite hexagon_fetch_exact by (specialize (Hexact eq_refl); lia).
    eexists; split_and!; [done|apply NoDup_hexagon_rows|].
    assert (Hdiv : height `div` 2 = r) by (Z.div_mod_to_equations; lia).
    rewrite Hdiv. rewrite Hr at 1. apply length_hexagon_rows. lia.
Qed.

(** X10: for each of the four build operations and every accepted size
    (for the rectangle with a converter that does not merge two cells, for
    the hexagon below 2^53), the build returns a grid whose hexagon list
    has the expected number of hexagons of its shape and whose storage has
    exactly as many entries: no insertion overwrites another. *)
Theorem build_counts `{!CoordinateConverter}
    (s : shape) (orientation : string) (radius : Float.float) (width height : Z)
    (log : list Builder.call) :
  check_size (strategy_of s) width height = Ok () →
  (s = Rectangular → converter_injective_on width height orientation) →
  (s = Hexagonal → height < 2 ^ 53) →
  ∃ control,
    (build_shape s orientation radius width height log).1 = Ok control
    ∧ Z.of_nat (length (Builder.hexagons (Builder.gc_hex_grid control)))
      = expected_count s width height
    ∧ size (Builder.storage (Builder.gc_hex_grid control))
      = length (Builder.hexagons (Builder.gc_hex_grid control)).
Proof.
  intros Hsize Hconv Hexact.
  destruct (fetch_accepted_size s width height orientation Hsize Hconv Hexact)
    as (coords & Hfetch & Hnd & Hlen).
  rewrite build_shape_run, Hsize, Hfetch. cbn zeta. eexists; split; [done|]. cbn.
  rewrite length_fmap. split; [done|]. by apply store_all_size.
Qed.

Lemma build_counts_witness :
  ∃ control,
    (build_shape (H := standard_converter) Hexagonal "POINTY_TOP" 1%Q 5 5 []).1
    = Ok control
    ∧ Z.of_nat (length (Builder.hexagons (Builder.gc_hex_grid control))) = 19
    ∧ size (Builder.storage (Builder.gc_hex_grid control))
      = length (Builder.hexagons (Builder.gc_hex_grid control)).
Proof.
  apply (build_counts (H := standard_converter) Hexagonal "POINTY_TOP" 1%Q 5 5 []).
  - reflexivity.
  - intros [=].
  - intros _. reflexivity.
Defined.

(** ** How the size rules nest *)


